(** * Conan recipes for gdk-pixbuf and libiconv: a shallow embedding

    The two recipes ([recipes/gdk-pixbuf/all/conanfile.py] and
    [recipes/libiconv/all/conanfile.py]) are Python classes whose methods
    mutate the recipe object [self] and the folders of the package cache,
    and may raise.  A method is embedded as a computation in a state and
    error monad over the recipe object; a raised exception leaves the
    mutations made so far in place, as in Python.

    [Module Conan] holds the part of the Conan 1.x client API the recipes
    call ([tools.Version], [tools.replace_in_file], [tools.rmdir],
    [tools.remove_files_by_mask], [tools.collect_libs], [rename], the
    requirement container).  [Module GdkPixbuf] and [Module Libiconv] are
    the two recipes, method by method. *)

From stdpp Require Import gmap strings list fin_maps sorting.
From Stdlib Require Import Ascii.

Local Open Scope stdpp_scope.

Module Conan.

(** ** Exceptions *)

Inductive error :=
| ConanInvalidConfiguration (msg : string)
| ConanException (msg : string)
| OSError (msg : string)
| ToolFailure (tool : string).

Inductive result (A : Type) :=
| OK (a : A)
| Raise (e : error).
Arguments OK {A} a.
Arguments Raise {A} e.

Definition is_ok {A} (r : result A) : bool :=
  match r with OK _ => true | Raise _ => false end.

(** ** [tools.Version]

    [tools.Version] parses a version string as a loose semantic version and
    compares numerically, component by component ("2.42" reads as 2.42.0).
    A version is kept here in parsed form; pre-release tags, which none of
    the packaged releases carries, are outside the model. *)

Record Version := mkVersion { major : N; minor : N; patch : N }.

Definition version_compare (a b : Version) : comparison :=
  match (major a ?= major b)%N with
  | Eq => match (minor a ?= minor b)%N with
          | Eq => (patch a ?= patch b)%N
          | c => c
          end
  | c => c
  end.

(** [Version(a) >= b] and [Version(a) < b]. *)
Definition version_ge (a b : Version) : bool :=
  match version_compare a b with Lt => false | _ => true end.
Definition version_lt (a b : Version) : bool :=
  match version_compare a b with Lt => true | _ => false end.

(** ** Settings

    [settings = "os", "arch", "compiler", "build_type"]; the compiler
    carries its version and the sub-settings [libcxx] and [cppstd], which
    a recipe may delete. *)

Record Settings := mkSettings {
  os : string;
  arch : string;
  compiler : string;
  compiler_version : Version;
  build_type : string;
  libcxx : option string;
  cppstd : option string
}.

Definition del_libcxx (s : Settings) : Settings :=
  mkSettings (os s) (arch s) (compiler s) (compiler_version s) (build_type s)
             None (cppstd s).
Definition del_cppstd (s : Settings) : Settings :=
  mkSettings (os s) (arch s) (compiler s) (compiler_version s) (build_type s)
             (libcxx s) None.

(** ** Text

    File contents are Python strings; [find], [replace] and [startswith]
    are the [str] methods [tools.replace_in_file] is written with. *)

Fixpoint startswith (s t : string) : bool :=
  match t with
  | "" => true
  | String c t' =>
      match s with
      | "" => false
      | String d s' => if Ascii.eqb c d then startswith s' t' else false
      end
  end.

Fixpoint endswith_go (n : nat) (s t : string) : bool :=
  match n with
  | O => String.eqb s t
  | S n' => match s with "" => false | String _ s' => endswith_go n' s' t end
  end.
Definition endswith (s t : string) : bool :=
  endswith_go (String.length s - String.length t) s t.

(** [contains s t] is [s.find(t) != -1]. *)
Fixpoint contains (s t : string) : bool :=
  startswith s t ||
  match s with
  | "" => false
  | String _ s' => contains s' t
  end.

Fixpoint has_char (c : ascii) (s : string) : bool :=
  match s with
  | "" => false
  | String d s' => Ascii.eqb c d || has_char c s'
  end.

Fixpoint drop_chars (n : nat) (s : string) : string :=
  match n with
  | O => s
  | S n' => match s with "" => "" | String _ s' => drop_chars n' s' end
  end.

(** [s.replace(old, new)] for a non-empty [old]: every occurrence, scanning
    from the left and resuming after each one.  [fuel] bounds the number of
    scanning steps; [String.length s] steps always suffice. *)
Fixpoint replace_go (fuel : nat) (old new s : string) : string :=
  match fuel with
  | O => s
  | S fuel' =>
      if startswith s old
      then new +:+ replace_go fuel' old new (drop_chars (String.length old) s)
      else match s with
           | "" => ""
           | String c s' => String c (replace_go fuel' old new s')
           end
  end.

(** [s.replace("", new)] puts [new] before every character and at the end. *)
Fixpoint interleave (new s : string) : string :=
  match s with
  | "" => new
  | String c s' => new +:+ String c (interleave new s')
  end.

Definition replace (old new s : string) : string :=
  match old with
  | "" => interleave new s
  | _ => replace_go (String.length s) old new s
  end.

(** [fnmatch.fnmatchcase(name, pattern)] for patterns made of literal
    characters, [?] and [*]. *)
Fixpoint fnmatch_go (pat : string) : string -> bool :=
  match pat with
  | "" => fun name => match name with "" => true | _ => false end
  | String "*" pat' =>
      fix star (name : string) : bool :=
        fnmatch_go pat' name ||
        match name with "" => false | String _ name' => star name' end
  | String "?" pat' =>
      fun name => match name with "" => false | String _ name' => fnmatch_go pat' name' end
  | String c pat' =>
      fun name =>
        match name with
        | "" => false
        | String d name' => Ascii.eqb c d && fnmatch_go pat' name'
        end
  end.
Definition fnmatch (name pat : string) : bool := fnmatch_go pat name.

(** ** Folders

    A folder of the package cache is a finite map from relative paths
    (lists of components) to the contents of the regular files below it.
    A directory is there when some file lies below it. *)

Definition path := list string.
Abbreviation tree := (gmap (list string) string).

Definition under (d p : path) : Prop := d `prefix_of` p.
Definition strictly_under (d p : path) : Prop := under d p ∧ p ≠ d.

Definition basename (p : path) : string := default "" (last p).

(** [os.path.isdir] and [os.path.exists]. *)
Definition isdir (d : path) (t : tree) : bool :=
  bool_decide (filter (λ e, strictly_under d e.1) t ≠ ∅).
Definition path_exists (p : path) (t : tree) : bool :=
  bool_decide (is_Some (t !! p)) || isdir p t.

Definition load (p : path) (t : tree) : result string :=
  match t !! p with
  | Some c => OK c
  | None => Raise (OSError "No such file or directory")
  end.

Definition save (p : path) (c : string) (t : tree) : tree := <[p := c]> t.

(** [tools.replace_in_file(file_path, search, replace, strict=True)]: the
    file is loaded, and when [search] does not occur in it a strict call
    raises, a lenient one only warns; the content with every occurrence
    replaced is then written back. *)
Definition replace_in_file (file_path : path) (search repl : string)
    (strict : bool) (t : tree) : result tree :=
  match load file_path t with
  | Raise e => Raise e
  | OK content =>
      if negb (contains content search) && strict
      then Raise (ConanException "replace_in_file didn't find pattern")
      else OK (save file_path (replace search repl content) t)
  end.

(** [tools.rmdir(path)]: the whole directory goes; a missing path is let
    pass, a regular file is an [OSError]. *)
Definition rmdir (d : path) (t : tree) : result tree :=
  match t !! d with
  | Some _ => Raise (OSError "Not a directory")
  | None => OK (filter (λ e, ¬ under d e.1) t)
  end.

(** [tools.remove_files_by_mask(directory, pattern)] walks [directory] and
    unlinks the files whose name matches. *)
Definition remove_files_by_mask (d : path) (pat : string) (t : tree) : tree :=
  filter (λ e, ¬ (strictly_under d e.1 ∧ fnmatch (basename e.1) pat = true)) t.

(** Moving a directory takes every file below it along. *)
Definition reroot (src dst p : path) : path :=
  if decide (under src p) then dst ++ drop (length src) p else p.
Definition move_dir (src dst : path) (t : tree) : tree :=
  list_to_map (prod_map (reroot src dst) id <$> map_to_list t).

(** [os.rename(src, dst)]: on Windows an existing [dst] is an error, on
    POSIX a regular file [dst] is replaced. *)
Definition os_rename (windows : bool) (src dst : path) (t : tree) : result tree :=
  match t !! src with
  | Some c =>
      if path_exists dst t && (windows || isdir dst t)
      then Raise (OSError "File exists")
      else OK (<[dst := c]> (delete src t))
  | None =>
      if isdir src t
      then if path_exists dst t then Raise (OSError "File exists")
           else OK (move_dir src dst t)
      else Raise (OSError "No such file or directory")
  end.

(** [conan.tools.files.rename(conanfile, src, dst)] refuses an existing
    [dst] on every platform and reports any failure of [os.rename] as a
    [ConanException]. *)
Definition rename (windows : bool) (src dst : path) (t : tree) : result tree :=
  if path_exists dst t
  then Raise (ConanException "rename failed, dst exists.")
  else match os_rename windows src dst t with
       | OK t' => OK t'
       | Raise _ => Raise (ConanException "rename failed")
       end.

(** [shutil.move(src, dst)] within one file system. *)
Definition shutil_move (windows : bool) (src dst : path) (t : tree) : result tree :=
  let real_dst := if isdir dst t then dst ++ [basename src] else dst in
  if isdir dst t && path_exists real_dst t
  then Raise (OSError "Destination path already exists")
  else os_rename windows src real_dst t.

(** [self.copy(pattern, dst, src)] for a pattern without wildcards: the one
    file of that name in [src], if it is there, lands in [dst]. *)
Definition copy (name : string) (dst src : path) (from to : tree) : tree :=
  match from !! (src ++ [name]) with
  | Some c => <[dst ++ [name] := c]> to
  | None => to
  end.

(** [os.listdir(d)]: the names directly below [d], in no particular order. *)
Definition listdir (d : path) (t : tree) : result (list string) :=
  match t !! d with
  | Some _ => Raise (OSError "Not a directory")
  | None =>
      OK (remove_dups
            (omap (λ e, if decide (under d e.1) then head (drop (length d) e.1) else None)
                  (map_to_list t)))
  end.

(** [os.path.splitext] of a file name: the extension starts at the last
    dot, unless only dots come before it. *)
Fixpoint split_last_dot (s : string) : option (string * string) :=
  match s with
  | "" => None
  | String c s' =>
      match split_last_dot s' with
      | Some (a, e) => Some (String c a, e)
      | None => if Ascii.eqb c "." then Some ("", s) else None
      end
  end.
Fixpoint all_dots (s : string) : bool :=
  match s with
  | "" => true
  | String c s' => Ascii.eqb c "." && all_dots s'
  end.
Definition splitext (f : string) : string * string :=
  match split_last_dot f with
  | Some (a, e) => if all_dots a then (f, "") else (a, e)
  | None => (f, "")
  end.

(** [tools.collect_libs(conanfile)] with the default [libdirs = ["lib"]]. *)
Definition lib_extensions : list string := [".so"; ".lib"; ".a"; ".dylib"; ".bc"].

Definition lib_name (f : string) : option string :=
  let '(name, ext) := splitext f in
  if bool_decide (ext ∈ lib_extensions)
  then Some (if negb (String.eqb ext ".lib") && startswith name "lib"
             then drop_chars 3 name else name)
  else None.

Definition collect_libs (package_folder : tree) : result (list string) :=
  match listdir ["lib"] package_folder with
  | Raise e => Raise e
  | OK files =>
      OK (merge_sort String.le
            (foldl (λ result f,
                      match lib_name f with
                      | Some name => if bool_decide (name ∈ result) then result
                                     else result ++ [name]
                      | None => result
                      end) [] files))
  end.

(** ** Requirements

    [self.requires] is a dictionary from package name to the pinned
    version.  Declaring a name twice with two versions is an error;
    [self.build_requires] simply overwrites. *)

Definition requires_add (name ver : string) (reqs : gmap string string)
    : result (gmap string string) :=
  match reqs !! name with
  | Some old => if decide (old = ver) then OK (<[name := ver]> reqs)
                else Raise (ConanException "Duplicated requirement")
  | None => OK (<[name := ver]> reqs)
  end.

Definition build_requires_add (name ver : string) (reqs : gmap string string)
    : gmap string string :=
  <[name := ver]> reqs.

(** ** Option values asked for

    The client keeps the option values asked for in a dictionary and
    assigns them in the order of the option names; of two values for one
    name the later one counts. *)
Definition client_order (requested : list (string * string))
    : list (string * string) :=
  merge_sort (λ a b, String.le a.1 b.1)
    (map_to_list (list_to_map (reverse requested) : gmap string string)).

(** The text of a Python list of strings. *)
Definition py_list (l : list string) : string :=
  "[" +:+ String.concat ", " ((λ x, "'" +:+ x +:+ "'") <$> l) +:+ "]".

Definition newline : string := String "010" "".

(** The two errors of an assignment to [self.options]. *)
Definition option_not_exist_msg (name : string) (existing : list string) : string :=
  "option '" +:+ name +:+ "' doesn't exist" +:+ newline +:+
  "Possible options are " +:+ py_list existing.
Definition option_wrong_value_msg (name value : string) (range : list string)
    : string :=
  "'" +:+ value +:+ "' is not a valid 'options." +:+ name +:+ "' value." +:+
  newline +:+ "Possible values are " +:+ py_list range.

(** ** The recipe object *)

Record CppInfo := mkCppInfo {
  libs : list string;
  includedirs : list string;
  names : gmap string string;
  defines : list string;
  system_libs : list string;
  properties : gmap string string
}.

Definition cpp_info_default : CppInfo :=
  mkCppInfo [] ["include"] ∅ [] [] ∅.

Definition set_libs (l : list string) (c : CppInfo) : CppInfo :=
  mkCppInfo l (includedirs c) (names c) (defines c) (system_libs c) (properties c).
Definition set_includedirs (l : list string) (c : CppInfo) : CppInfo :=
  mkCppInfo (libs c) l (names c) (defines c) (system_libs c) (properties c).
Definition set_names (n : gmap string string) (c : CppInfo) : CppInfo :=
  mkCppInfo (libs c) (includedirs c) n (defines c) (system_libs c) (properties c).
Definition set_defines (l : list string) (c : CppInfo) : CppInfo :=
  mkCppInfo (libs c) (includedirs c) (names c) l (system_libs c) (properties c).
Definition set_system_libs (l : list string) (c : CppInfo) : CppInfo :=
  mkCppInfo (libs c) (includedirs c) (names c) (defines c) l (properties c).
Definition set_properties (p : gmap string string) (c : CppInfo) : CppInfo :=
  mkCppInfo (libs c) (includedirs c) (names c) (defines c) (system_libs c) p.

(** An invocation of the external build system. *)
Record Invocation := mkInvocation {
  tool : string;
  tool_args : list string;
  tool_defs : gmap string string;
  tool_env : gmap string string
}.

(** What a run leaves in its log. *)
Inductive event :=
| Method (name : string)
| Download (v : Version)
| Replaced (file : path) (search : string)
| Renamed (src dst : path)
| Invoked (i : Invocation)
| Info (msg : string).

(** [O] is the type of the option values of the recipe, [X] the
    attributes its class adds to [ConanFile]. *)
Record ConanFile (O X : Type) := mkConanFile {
  version : Version;
  settings : Settings;
  options : O;
  requires : gmap string string;
  build_requires : gmap string string;
  source_folder : tree;
  build_folder : tree;
  package_folder : tree;
  cpp_info : CppInfo;
  env_info : gmap string (list path);
  output : list event;
  attrs : X
}.
Arguments mkConanFile {O X}.
Arguments version {O X}.
Arguments settings {O X}.
Arguments options {O X}.
Arguments requires {O X}.
Arguments build_requires {O X}.
Arguments source_folder {O X}.
Arguments build_folder {O X}.
Arguments package_folder {O X}.
Arguments cpp_info {O X}.
Arguments env_info {O X}.
Arguments output {O X}.
Arguments attrs {O X}.

Section Setters.
Context {O X : Type}.
Implicit Type self : ConanFile O X.

Definition set_settings (s : Settings) self :=
    mkConanFile (version self) s (options self) (requires self)
      (build_requires self) (source_folder self) (build_folder self)
      (package_folder self) (cpp_info self) (env_info self) (output self)
      (attrs self).
Definition set_options (o : O) self :=
    mkConanFile (version self) (settings self) o (requires self)
      (build_requires self) (source_folder self) (build_folder self)
      (package_folder self) (cpp_info self) (env_info self) (output self)
      (attrs self).
Definition set_requires (r : gmap string string) self :=
    mkConanFile (version self) (settings self) (options self) r
      (build_requires self) (source_folder self) (build_folder self)
      (package_folder self) (cpp_info self) (env_info self) (output self)
      (attrs self).
Definition set_build_requires (r : gmap string string) self :=
    mkConanFile (version self) (settings self) (options self) (requires self)
      r (source_folder self) (build_folder self)
      (package_folder self) (cpp_info self) (env_info self) (output self)
      (attrs self).
Definition set_source_folder (t : tree) self :=
    mkConanFile (version self) (settings self) (options self) (requires self)
      (build_requires self) t (build_folder self)
      (package_folder self) (cpp_info self) (env_info self) (output self)
      (attrs self).
Definition set_build_folder (t : tree) self :=
    mkConanFile (version self) (settings self) (options self) (requires self)
      (build_requires self) (source_folder self) t
      (package_folder self) (cpp_info self) (env_info self) (output self)
      (attrs self).
Definition set_package_folder (t : tree) self :=
    mkConanFile (version self) (settings self) (options self) (requires self)
      (build_requires self) (source_folder self) (build_folder self)
      t (cpp_info self) (env_info self) (output self)
      (attrs self).
Definition set_cpp_info (c : CppInfo) self :=
    mkConanFile (version self) (settings self) (options self) (requires self)
      (build_requires self) (source_folder self) (build_folder self)
      (package_folder self) c (env_info self) (output self)
      (attrs self).
Definition set_env_info (e : gmap string (list path)) self :=
    mkConanFile (version self) (settings self) (options self) (requires self)
      (build_requires self) (source_folder self) (build_folder self)
      (package_folder self) (cpp_info self) e (output self)
      (attrs self).
Definition set_output (l : list event) self :=
    mkConanFile (version self) (settings self) (options self) (requires self)
      (build_requires self) (source_folder self) (build_folder self)
      (package_folder self) (cpp_info self) (env_info self) l
      (attrs self).
Definition set_attrs (x : X) self :=
    mkConanFile (version self) (settings self) (options self) (requires self)
      (build_requires self) (source_folder self) (build_folder self)
      (package_folder self) (cpp_info self) (env_info self) (output self)
      x.
End Setters.

(** ** The machine the recipe runs on

    The archive server, the patch files, the generators and the external
    build system are not the recipe's: what they answer is an input of the
    run. *)
Record Host := mkHost {
  (** [tools.os_info.is_windows] *)
  os_info_is_windows : bool;
  (** [tools.cross_building(self)] *)
  cross_building : bool;
  (** [os.environ], read through [tools.get_env] *)
  environ : gmap string string;
  (** [self.settings_build], when the build profile is given *)
  settings_build : option Settings;
  (** what [tools.get] unpacks (root stripped) for the [sources] entry of
      a version, or nothing when the download or its checksum fails *)
  unpack : Version → option tree;
  (** the patches of [self.conan_data["patches"]] for a version, each as
      [tools.patch] applies it *)
  patches : Version → list (tree → option tree);
  (** the files the generators write into the build folder for the
      declared requirements *)
  generated : gmap string string → tree;
  (** the external build system: the files an invocation installs, or
      nothing when it exits with an error *)
  execute : Invocation → tree → option tree
}.

(** ** Methods

    A method of the recipe takes [self] and gives back its value, or the
    exception it raised, together with [self] as the method left it. *)

Record M (S A : Type) := mkM { runM : S → result A * S }.
Arguments mkM {S A}.
Arguments runM {S A}.

Global Instance M_ret {S} : MRet (M S) :=
  λ A a, mkM (λ s, (OK a, s)).
Global Instance M_bind {S} : MBind (M S) :=
  λ A B f m, mkM (λ s, match runM m s with
                        | (OK a, s') => runM (f a) s'
                        | (Raise e, s') => (Raise e, s')
                        end).

Definition raise {S A} (e : error) : M S A := mkM (λ s, (Raise e, s)).
Definition this {S} : M S S := mkM (λ s, (OK s, s)).
Definition modify {S} (f : S → S) : M S () := mkM (λ s, (OK (), f s)).
Definition try {S A} (r : result A) : M S A := mkM (λ s, (r, s)).
Definition when {S} (b : bool) (m : M S ()) : M S () :=
  if b then m else mret ().
(** [for x in l: body] *)
Fixpoint for_each {S A} (l : list A) (body : A → M S ()) : M S () :=
  match l with
  | [] => mret ()
  | x :: l' => body x;; for_each l' body
  end.

(** The outcome of a method and the object it leaves. *)
Definition outcome {S A} (m : M S A) (s : S) : result A := (runM m s).1.
Definition after {S A} (m : M S A) (s : S) : S := (runM m s).2.

Section Api.
Context {O X : Type}.
Abbreviation Self := (ConanFile O X).

Definition log (e : event) : M Self () :=
    modify (λ self, set_output (output self ++ [e]) self).

Definition modify_cpp_info (f : CppInfo → CppInfo) : M Self () :=
    modify (λ self, set_cpp_info (f (cpp_info self)) self).

  (** [self.requires("name/version")] and [self.build_requires(...)]. *)
Definition self_requires (name ver : string) : M Self () :=
    self ← this;
    reqs ← try (requires_add name ver (requires self));
    modify (set_requires reqs).
Definition self_build_requires (name ver : string) : M Self () :=
    modify (λ self, set_build_requires
                      (build_requires_add name ver (build_requires self)) self).

  (** [del self.settings.compiler.libcxx]: deleting a sub-setting that is
      not there is let pass. *)
Definition del_settings_compiler_libcxx : M Self () :=
    modify (λ self, set_settings (del_libcxx (settings self)) self).
Definition del_settings_compiler_cppstd : M Self () :=
    modify (λ self, set_settings (del_cppstd (settings self)) self).

  (** The folders a method works in. *)
Inductive folder := SourceFolder | BuildFolder | PackageFolder.
Definition get_folder (f : folder) (self : Self) : tree :=
    match f with
    | SourceFolder => source_folder self
    | BuildFolder => build_folder self
    | PackageFolder => package_folder self
    end.
Definition set_folder (f : folder) (t : tree) (self : Self) : Self :=
    match f with
    | SourceFolder => set_source_folder t self
    | BuildFolder => set_build_folder t self
    | PackageFolder => set_package_folder t self
    end.
Definition in_folder (f : folder) (op : tree → result tree) : M Self () :=
    self ← this;
    t ← try (op (get_folder f self));
    modify (set_folder f t).

  (** [tools.get(..., destination=d, strip_root=True)] in [source()]. *)
Definition tools_get (h : Host) (destination : path) : M Self () :=
    self ← this;
    match unpack h (version self) with
    | None => raise (ConanException "Error downloading the sources")
    | Some t =>
        modify (λ self, set_source_folder
                          (kmap (destination ++.) t ∪ source_folder self) self);;
        log (Download (version self))
    end.

  (** [tools.replace_in_file(file, search, replace)], strict by default. *)
Definition tools_replace_in_file (f : folder) (file : path)
      (search repl : string) : M Self () :=
    in_folder f (replace_in_file file search repl true);;
    log (Replaced file search).

  (** Running the external build system in the build folder; the files it
      installs go to the package folder. *)
Definition run_tool (h : Host) (i : Invocation) : M Self () :=
    self ← this;
    log (Invoked i);;
    match execute h i (build_folder self) with
    | None => raise (ToolFailure (tool i))
    | Some installed =>
        modify (λ self, set_package_folder (installed ∪ package_folder self) self)
    end.
End Api.

End Conan.

(** * recipes/gdk-pixbuf/all/conanfile.py *)

Module GdkPixbuf.
Import Conan.

(** [options] and [default_options].  [with_libjpeg] ranges over
    ["libjpeg"], ["libjpeg-turbo"] and [False]; [fPIC] and [with_jasper]
    are the two options the recipe deletes. *)
Inductive Libjpeg := libjpeg | libjpeg_turbo | libjpeg_False.

Record Options := mkOptions {
  shared : bool;
  fPIC : option bool;
  with_libpng : bool;
  with_libtiff : bool;
  with_libjpeg : Libjpeg;
  with_jasper : option bool;
  with_introspection : bool
}.

Definition default_options : Options :=
  mkOptions false (Some true) true true libjpeg (Some false) false.

Abbreviation Self := (ConanFile Options ()).

Definition _source_subfolder : string := "source_subfolder".
Definition _build_subfolder : string := "build_subfolder".

Definition del_options_fPIC : M Self () :=
  modify (λ self,
    let o := options self in
    set_options (mkOptions (shared o) None (with_libpng o) (with_libtiff o)
                   (with_libjpeg o) (with_jasper o) (with_introspection o)) self).
Definition del_options_with_jasper : M Self () :=
  modify (λ self,
    let o := options self in
    set_options (mkOptions (shared o) (fPIC o) (with_libpng o) (with_libtiff o)
                   (with_libjpeg o) None (with_introspection o)) self).

(** [bool(self.options.with_libjpeg)] *)
Definition libjpeg_true (j : Libjpeg) : bool :=
  match j with libjpeg_False => false | _ => true end.
(** [self.options.get_safe(name)] of a boolean option, as a condition *)
Definition get_safe (o : option bool) : bool := default false o.

Definition config_options : M Self () :=
  self ← this;
  when (String.eqb (os (settings self)) "Windows") del_options_fPIC;;
  when (version_ge (version self) (mkVersion 2 42 0)) del_options_with_jasper.

Definition configure : M Self () :=
  self ← this;
  when (shared (options self)) del_options_fPIC;;
  del_settings_compiler_libcxx;;
  del_settings_compiler_cppstd;;
  self ← this;
  when (String.eqb (os (settings self)) "Macos")
    (raise (ConanInvalidConfiguration
              "This package does not support Macos currently")).

Definition build_requirements : M Self () :=
  self_build_requires "meson" "0.61.2";;
  self_build_requires "pkgconf" "1.7.4";;
  self ← this;
  when (with_introspection (options self))
    (self_build_requires "gobject-introspection" "1.70.0").

Definition requirements : M Self () :=
  self_requires "glib" "2.70.4";;
  self ← this;
  when (with_libpng (options self)) (self_requires "libpng" "1.6.37");;
  when (with_libtiff (options self)) (self_requires "libtiff" "4.3.0");;
  match with_libjpeg (options self) with
  | libjpeg_turbo => self_requires "libjpeg-turbo" "2.1.2"
  | libjpeg => self_requires "libjpeg" "9d"
  | libjpeg_False => mret ()
  end;;
  when (get_safe (with_jasper (options self))) (self_requires "jasper" "2.0.33").

Definition meson_build_file : path := [_source_subfolder; "meson.build"].
Definition post_install_file : path :=
  [_source_subfolder; "build-aux"; "post-install.py"].

Definition gmodule_probe (v : Version) : string :=
  if version_ge v (mkVersion 2 42 6)
  then "gmodule_dep.get_variable(pkgconfig: 'gmodule_supported')"
  else "gmodule_dep.get_pkgconfig_variable('gmodule_supported')".

Definition source (h : Host) : M Self () :=
  tools_get h [_source_subfolder];;
  tools_replace_in_file SourceFolder meson_build_file
    "subdir('tests')" "#subdir('tests')";;
  tools_replace_in_file SourceFolder meson_build_file
    "subdir('thumbnailer')" "#subdir('thumbnailer')";;
  self ← this;
  tools_replace_in_file SourceFolder meson_build_file
    (gmodule_probe (version self)) "'true'";;
  when (version_ge (version self) (mkVersion 2 42 6))
    (tools_replace_in_file SourceFolder post_install_file
       "close_fds=True" "close_fds=(sys.platform != 'win32')").

Definition true_false (b : bool) : string := if b then "true" else "false".

(** The dictionary [defs] of [_configure_meson], built in the order of
    the assignments. *)
Definition meson_defs (v : Version) (o : Options) : gmap string string :=
  let defs : gmap string string := ∅ in
  let defs := if version_ge v (mkVersion 2 42 0)
              then <["introspection" := "false"]> defs
              else <["gir" := "false"]> defs in
  let defs := <["docs" := "false"]> defs in
  let defs := <["man" := "false"]> defs in
  let defs := <["installed_tests" := "false"]> defs in
  let defs := <["png" := true_false (with_libpng o)]> defs in
  let defs := <["tiff" := true_false (with_libtiff o)]> defs in
  let defs := <["jpeg" := true_false (libjpeg_true (with_libjpeg o))]> defs in
  let defs := match with_jasper o with
              | Some b => <["jasper" := true_false b]> defs
              | None => defs
              end in
  let defs := if version_lt v (mkVersion 2 42 0)
              then <["x11" := "false"]> defs else defs in
  let defs := <["builtin_loaders" := "all"]> defs in
  let defs := <["gio_sniffing" := "false"]> defs in
  <["introspection" := if with_introspection o then "enabled" else "disabled"]> defs.

(** [_configure_meson] runs [meson.configure] and hands the configured
    [Meson] object back; [env] is what [tools.environment_append] has put
    around the call. *)
Definition _configure_meson (h : Host) (env : gmap string string)
    : M Self Invocation :=
  self ← this;
  let defs := meson_defs (version self) (options self) in
  let args := ["--wrap-mode=nofallback"] in
  run_tool h (mkInvocation "meson configure" args defs env);;
  mret (mkInvocation "meson" args defs env).

Definition meson_build (h : Host) (meson : Invocation) : M Self () :=
  run_tool h (mkInvocation "meson build" (tool_args meson) (tool_defs meson)
                           (tool_env meson)).
Definition meson_install (h : Host) (meson : Invocation) : M Self () :=
  run_tool h (mkInvocation "meson install" (tool_args meson) (tool_defs meson)
                           (tool_env meson)).

Definition build (h : Host) : M Self () :=
  self ← this;
  when (with_libpng (options self))
    (in_folder BuildFolder
       (shutil_move (os_info_is_windows h) ["libpng.pc"] ["libpng16.pc"]));;
  meson ← _configure_meson h ∅;
  meson_build h meson.

Definition is_msvc (s : Settings) : bool :=
  bool_decide (compiler s ∈ ["Visual Studio"; "msvc"]).

Definition package (h : Host) : M Self () :=
  modify (λ self, set_package_folder
                    (copy "COPYING" ["licenses"] [_source_subfolder]
                          (build_folder self) (package_folder self)) self);;
  meson ← _configure_meson h {["LD_LIBRARY_PATH" := "lib"]};
  meson_install h meson;;
  self ← this;
  when (is_msvc (settings self) && negb (shared (options self)))
    (in_folder PackageFolder
       (os_rename (os_info_is_windows h)
          ["lib"; "libgdk_pixbuf-2.0.a"] ["lib"; "gdk_pixbuf-2.0.lib"]));;
  in_folder PackageFolder (rmdir ["lib"; "pkgconfig"]);;
  in_folder PackageFolder (rmdir ["share"]);;
  in_folder PackageFolder (λ t, OK (remove_files_by_mask [] "*.pdb" t)).

Definition package_info : M Self () :=
  self ← this;
  collected ← try (collect_libs (package_folder self));
  modify_cpp_info (set_libs collected);;
  modify_cpp_info (set_includedirs ["include/gdk-pixbuf-2.0"]);;
  modify_cpp_info (λ c, set_names (<["pkg_config" := "gdk-pixbuf-2.0"]> (names c)) c);;
  when (negb (shared (options self)))
    (modify_cpp_info (λ c, set_defines (defines c ++ ["GDK_PIXBUF_STATIC_COMPILATION"]) c));;
  when (bool_decide (os (settings self) ∈ ["Linux"; "FreeBSD"]))
    (modify_cpp_info (set_system_libs ["m"]));;
  modify (λ self, set_env_info
                    (<["GDK_PIXBUF_PIXDATA" := [["bin"; "gdk-pixbuf-pixdata"]]]>
                       (env_info self)) self).

(** ** The run

    The Conan client creates the recipe object with its default options,
    assigns the option values asked for (an option that does not exist, or
    a value outside its range, is an error), calls [config_options] and
    [configure], and then the remaining methods in order.  When the values
    are assigned depends on where the recipe is: see [configuration] and
    [consumer_configuration]. *)

Definition new (v : Version) (s : Settings) : Self :=
  mkConanFile v s default_options ∅ ∅ ∅ ∅ ∅ cpp_info_default ∅ [] ().

Definition option_value_bool (name value : string) : result bool :=
  if String.eqb value "True" then OK true
  else if String.eqb value "False" then OK false
  else Raise (ConanException
                (option_wrong_value_msg name value ["True"; "False"])).
Definition option_value_libjpeg (value : string) : result Libjpeg :=
  if String.eqb value "libjpeg" then OK libjpeg
  else if String.eqb value "libjpeg-turbo" then OK libjpeg_turbo
  else if String.eqb value "False" then OK libjpeg_False
  else Raise (ConanException
                (option_wrong_value_msg "with_libjpeg" value
                   ["libjpeg"; "libjpeg-turbo"; "False"])).

(** The options that are there, in the order of their declaration. *)
Definition existing_options (o : Options) : list string :=
  ["shared"] ++ (match fPIC o with Some _ => ["fPIC"] | None => [] end) ++
  ["with_libpng"; "with_libtiff"; "with_libjpeg"] ++
  (match with_jasper o with Some _ => ["with_jasper"] | None => [] end) ++ ["with_introspection"].
Definition option_not_exist (name : string) (o : Options) : error :=
  ConanException (option_not_exist_msg name (existing_options o)).

(** [self.options.<name> = value], as the options object of the client
    carries it out for the options this recipe declares: a name that is not
    (or no longer) among the options and a value outside the declared range
    are errors.  This is the client's code, not the recipe's. *)
Definition assign_option (name value : string) (o : Options) : result Options :=
  if String.eqb name "shared" then
    match option_value_bool name value with
    | OK b => OK (mkOptions b (fPIC o) (with_libpng o) (with_libtiff o)
                    (with_libjpeg o) (with_jasper o) (with_introspection o))
    | Raise e => Raise e
    end
  else if String.eqb name "fPIC" then
    match fPIC o with
    | None => Raise (option_not_exist name o)
    | Some _ =>
        match option_value_bool name value with
        | OK b => OK (mkOptions (shared o) (Some b) (with_libpng o) (with_libtiff o)
                        (with_libjpeg o) (with_jasper o) (with_introspection o))
        | Raise e => Raise e
        end
    end
  else if String.eqb name "with_libpng" then
    match option_value_bool name value with
    | OK b => OK (mkOptions (shared o) (fPIC o) b (with_libtiff o)
                    (with_libjpeg o) (with_jasper o) (with_introspection o))
    | Raise e => Raise e
    end
  else if String.eqb name "with_libtiff" then
    match option_value_bool name value with
    | OK b => OK (mkOptions (shared o) (fPIC o) (with_libpng o) b
                    (with_libjpeg o) (with_jasper o) (with_introspection o))
    | Raise e => Raise e
    end
  else if String.eqb name "with_libjpeg" then
    match option_value_libjpeg value with
    | OK j => OK (mkOptions (shared o) (fPIC o) (with_libpng o) (with_libtiff o)
                    j (with_jasper o) (with_introspection o))
    | Raise e => Raise e
    end
  else if String.eqb name "with_jasper" then
    match with_jasper o with
    | None => Raise (option_not_exist name o)
    | Some _ =>
        match option_value_bool name value with
        | OK b => OK (mkOptions (shared o) (fPIC o) (with_libpng o) (with_libtiff o)
                        (with_libjpeg o) (Some b) (with_introspection o))
        | Raise e => Raise e
        end
    end
  else if String.eqb name "with_introspection" then
    match option_value_bool name value with
    | OK b => OK (mkOptions (shared o) (fPIC o) (with_libpng o) (with_libtiff o)
                    (with_libjpeg o) (with_jasper o) b)
    | Raise e => Raise e
    end
  else Raise (option_not_exist name o).

(** The assignment of a list of option values, one after the other. *)
Definition assign_options (values : list (string * string)) : M Self () :=
  for_each values (λ nv,
    self ← this;
    o ← try (assign_option nv.1 nv.2 (options self));
    modify (set_options o)).

(** The option values asked for, assigned in the order of the client. *)
Definition user_options (requested : list (string * string)) : M Self () :=
  assign_options (client_order requested).

(** The build folder starts as a copy of the source folder, with the files
    of the generators next to it. *)
Definition prepare_build (h : Host) : M Self () :=
  modify (λ self, set_build_folder
                    (generated h (requires self) ∪ source_folder self) self).

(** The configuration of a recipe in the cache (a package that is created,
    or a dependency): [config_options] runs first and the values asked for
    are assigned to what it has left. *)
Definition configuration (requested : list (string * string)) : M Self () :=
  log (Method "config_options");; config_options;;
  user_options requested;;
  log (Method "configure");; configure.

Definition run (h : Host) (requested : list (string * string)) : M Self () :=
  configuration requested;;
  log (Method "requirements");; requirements;;
  log (Method "build_requirements");; build_requirements;;
  log (Method "source");; source h;;
  prepare_build h;;
  log (Method "build");; build h;;
  log (Method "package");; package h;;
  log (Method "package_info");; package_info.



End GdkPixbuf.

(** * recipes/libiconv/all/conanfile.py *)

Module Libiconv.
Import Conan.

Record Options := mkOptions {
  shared : bool;
  fPIC : option bool
}.

Definition default_options : Options := mkOptions false (Some true).

(** [AutoToolsBuildEnvironment], with the arguments its [configure] was
    called with.  [flags] holds what the recipe appends to the flags of the
    helper; those the helper derives from the settings, and what it adds to
    the command line of the configure script on its own (the prefix, the
    flags through [CFLAGS]), are the helper's and are not kept. *)
Record ConfigureCall := mkConfigureCall {
  call_args : list string;
  call_host : option string;
  call_build : option bool
}.
Record AutoToolsBuildEnvironment := mkAutoTools {
  win_bash : bool;
  flags : list string;
  configured : option ConfigureCall
}.

(** The class attribute [_autotools = None]. *)
Abbreviation Self := (ConanFile Options (option AutoToolsBuildEnvironment)).
Definition _autotools (self : Self) : option AutoToolsBuildEnvironment :=
  attrs self.

Definition _source_subfolder : string := "source_subfolder".

Definition _use_winbash (h : Host) (self : Self) : bool :=
  os_info_is_windows h &&
  (String.eqb (compiler (settings self)) "gcc" || cross_building h).

Definition _is_msvc (self : Self) : bool :=
  bool_decide (compiler (settings self) ∈ ["Visual Studio"; "msvc"]).

Definition _is_clang_cl (self : Self) : bool :=
  String.eqb (compiler (settings self)) "clang" &&
  String.eqb (os (settings self)) "Windows".

Definition del_options_fPIC : M Self () :=
  modify (λ self, set_options (mkOptions (shared (options self)) None) self).

Definition config_options : M Self () :=
  self ← this;
  when (String.eqb (os (settings self)) "Windows") del_options_fPIC.

Definition configure : M Self () :=
  self ← this;
  when (shared (options self)) del_options_fPIC;;
  del_settings_compiler_libcxx;;
  del_settings_compiler_cppstd.

Definition _settings_build (h : Host) (self : Self) : Settings :=
  default (settings self) (settings_build h).

(** [tools.get_env(name)] as a condition: unset and empty are false. *)
Definition get_env_true (h : Host) (name : string) : bool :=
  match environ h !! name with
  | Some v => negb (String.eqb v "")
  | None => false
  end.

Definition build_requirements (h : Host) : M Self () :=
  self ← this;
  when (String.eqb (os (_settings_build h self)) "Windows" &&
        negb (get_env_true h "CONAN_BASH_PATH"))
    (self_build_requires "msys2" "cci.latest").

(** The recipe has no [requirements] method: the one of [ConanFile] does
    nothing. *)
Definition requirements : M Self () := mret ().

Definition source (h : Host) : M Self () :=
  tools_get h [_source_subfolder].

Definition environ_get (h : Host) (name fallback : string) : string :=
  default fallback (environ h !! name).

(** The [env_vars] of [_build_context]; the paths of the two libtool
    wrappers are given relative to the build folder. *)
Definition _build_context (h : Host) (self : Self) : gmap string string :=
  let env_vars : gmap string string := ∅ in
  let env_vars :=
    if _is_msvc self || _is_clang_cl self then
      let cc := if _is_msvc self then "cl" else environ_get h "CC" "clang-cl" in
      let cxx := if _is_msvc self then "cl" else environ_get h "CXX" "clang-cl" in
      let lib := if _is_msvc self then "lib" else environ_get h "AR" "llvm-lib" in
      let build_aux_path := _source_subfolder +:+ "/build-aux" in
      let lt_compile := build_aux_path +:+ "/compile" in
      let lt_ar := build_aux_path +:+ "/ar-lib" in
      <["win32_target" := "_WIN32_WINNT_VISTA"]>
      (<["NM" := "dumpbin -symbols"]>
      (<["RANLIB" := ":"]>
      (<["AR" := lt_ar +:+ " " +:+ lib]>
      (<["STRIP" := ":"]>
      (<["LD" := "link"]>
      (<["CXX" := lt_compile +:+ " " +:+ cxx +:+ " -nologo"]>
      (<["CC" := lt_compile +:+ " " +:+ cc +:+ " -nologo"]> env_vars)))))))
    else env_vars in
  let env_vars :=
    if negb (cross_building h) || _is_msvc self || _is_clang_cl self then
      let rc :=
        if String.eqb (arch (settings self)) "x86"
        then Some "windres --target=pe-i386"
        else if String.eqb (arch (settings self)) "x86_64"
        then Some "windres --target=pe-x86-64"
        else None in
      match rc with
      | Some rc => <["WINDRES" := rc]> (<["RC" := rc]> env_vars)
      | None => env_vars
      end
    else env_vars in
  if _use_winbash h self then <["RANLIB" := ":"]> env_vars else env_vars.

(** The first call creates and configures [self._autotools]; later calls
    give the same object back.  The invocation that is run carries what the
    recipe passes to [configure]: [configure_args], the host triple and the
    environment of [_build_context]. *)
Definition _configure_autotools (h : Host) (env : gmap string string)
    : M Self AutoToolsBuildEnvironment :=
  self ← this;
  match _autotools self with
  | Some autotools => mret autotools
  | None =>
      let host_build :=
        if _is_msvc self || _is_clang_cl self then
          (if String.eqb (arch (settings self)) "x86"
           then Some "i686-w64-mingw32"
           else if String.eqb (arch (settings self)) "x86_64"
           then Some "x86_64-w64-mingw32"
           else None, Some false)
        else (None, None) in
      let autotools := mkAutoTools (os_info_is_windows h) [] None in
      modify (set_attrs (Some autotools));;
      let configure_args :=
        if shared (options self)
        then ["--disable-static"; "--enable-shared"]
        else ["--enable-static"; "--disable-shared"] in
      let autotools :=
        if (String.eqb (compiler (settings self)) "Visual Studio" &&
            version_ge (compiler_version (settings self)) (mkVersion 12 0 0))
           || String.eqb (compiler (settings self)) "msvc"
        then mkAutoTools (win_bash autotools) (flags autotools ++ ["-FS"]) None
        else autotools in
      let autotools :=
        mkAutoTools (win_bash autotools) (flags autotools)
          (Some (mkConfigureCall configure_args host_build.1 host_build.2)) in
      modify (set_attrs (Some autotools));;
      run_tool h (mkInvocation "configure" configure_args
                    (from_option (λ t, {["host" := t]}) ∅ host_build.1) env);;
      mret autotools
  end.

Definition rpath_files : list path :=
  [[_source_subfolder; "configure"];
   [_source_subfolder; "libcharset"; "configure"]].

Definition _patch_sources (h : Host) : M Self () :=
  self ← this;
  for_each (patches h (version self)) (λ patch,
    in_folder BuildFolder (λ t,
      match patch t with
      | Some t' => OK t'
      | None => Raise (ConanException "Failed to apply patch")
      end));;
  (* relocatable shared libs on macOS *)
  for_each rpath_files (λ configure,
    tools_replace_in_file BuildFolder configure
      "-install_name \$rpath/" "-install_name @rpath/").

Definition build (h : Host) : M Self () :=
  _patch_sources h;;
  self ← this;
  let env := _build_context h self in
  autotools ← _configure_autotools h env;
  run_tool h (mkInvocation "make" [] ∅ env).

Definition import_libs : list string := ["iconv"; "charset"].

Definition package (h : Host) : M Self () :=
  modify (λ self, set_package_folder
                    (copy "COPYING.LIB" ["licenses"] [_source_subfolder]
                          (build_folder self) (package_folder self)) self);;
  self ← this;
  let env := _build_context h self in
  autotools ← _configure_autotools h env;
  run_tool h (mkInvocation "make install" [] ∅ env);;
  in_folder PackageFolder (λ t, OK (remove_files_by_mask ["lib"] "*.la" t));;
  in_folder PackageFolder (rmdir ["share"]);;
  self ← this;
  when ((_is_msvc self || _is_clang_cl self) && shared (options self))
    (for_each import_libs (λ import_lib,
       in_folder PackageFolder
         (rename (os_info_is_windows h)
            ["lib"; import_lib +:+ ".dll.lib"] ["lib"; import_lib +:+ ".lib"]);;
       log (Renamed ["lib"; import_lib +:+ ".dll.lib"]
                    ["lib"; import_lib +:+ ".lib"]))).

Definition package_info : M Self () :=
  modify_cpp_info (λ c, set_properties (<["cmake_find_mode" := "both"]> (properties c)) c);;
  modify_cpp_info (λ c, set_properties (<["cmake_file_name" := "Iconv"]> (properties c)) c);;
  modify_cpp_info (λ c, set_properties (<["cmake_target_name" := "Iconv::Iconv"]> (properties c)) c);;
  modify_cpp_info (λ c, set_names (<["cmake_find_package" := "Iconv"]> (names c)) c);;
  modify_cpp_info (λ c, set_names (<["cmake_find_package_multi" := "Iconv"]> (names c)) c);;
  modify_cpp_info (set_libs ["iconv"; "charset"]);;
  let binpath := ["bin"] in
  log (Info "Appending PATH environment var: bin");;
  modify (λ self, set_env_info
                    (<["path" := default [] (env_info self !! "path") ++ [binpath]]>
                       (env_info self)) self).

(** ** The run *)

Definition new (v : Version) (s : Settings) : Self :=
  mkConanFile v s default_options ∅ ∅ ∅ ∅ ∅ cpp_info_default ∅ [] None.

Definition option_value_bool (name value : string) : result bool :=
  if String.eqb value "True" then OK true
  else if String.eqb value "False" then OK false
  else Raise (ConanException
                (option_wrong_value_msg name value ["True"; "False"])).
Definition existing_options (o : Options) : list string :=
  ["shared"] ++ (match fPIC o with Some _ => ["fPIC"] | None => [] end).
Definition option_not_exist (name : string) (o : Options) : error :=
  ConanException (option_not_exist_msg name (existing_options o)).

(** [self.options.<name> = value], as the options object of the client
    carries it out; the client's code, not the recipe's. *)
Definition assign_option (name value : string) (o : Options) : result Options :=
  if String.eqb name "shared" then
    match option_value_bool name value with
    | OK b => OK (mkOptions b (fPIC o))
    | Raise e => Raise e
    end
  else if String.eqb name "fPIC" then
    match fPIC o with
    | None => Raise (option_not_exist name o)
    | Some _ =>
        match option_value_bool name value with
        | OK b => OK (mkOptions (shared o) (Some b))
        | Raise e => Raise e
        end
    end
  else Raise (option_not_exist name o).

(** The assignment of a list of option values, one after the other. *)
Definition assign_options (values : list (string * string)) : M Self () :=
  for_each values (λ nv,
    self ← this;
    o ← try (assign_option nv.1 nv.2 (options self));
    modify (set_options o)).

(** The option values asked for, assigned in the order of the client. *)
Definition user_options (requested : list (string * string)) : M Self () :=
  assign_options (client_order requested).

Definition prepare_build (h : Host) : M Self () :=
  modify (λ self, set_build_folder
                    (generated h (requires self) ∪ source_folder self) self).

(** The configuration of a recipe in the cache: [config_options] runs
    first and the values asked for are assigned to what it has left.  (For
    a recipe in user space the client assigns them when it loads the
    recipe, before [config_options].) *)
Definition configuration (requested : list (string * string)) : M Self () :=
  log (Method "config_options");; config_options;;
  user_options requested;;
  log (Method "configure");; configure.

Definition run (h : Host) (requested : list (string * string)) : M Self () :=
  configuration requested;;
  log (Method "requirements");; requirements;;
  log (Method "build_requirements");; build_requirements h;;
  log (Method "source");; source h;;
  prepare_build h;;
  log (Method "build");; build h;;
  log (Method "package");; package h;;
  log (Method "package_info");; package_info.

End Libiconv.

(** * Reasoning about methods *)

Module Logic.
Import Conan.

(** [hoare P m Q]: started in a state that satisfies [P], the method [m]
    ends, normally or by an exception, in a state and with an outcome
    that satisfy [Q]. *)
Definition hoare {S A} (P : S → Prop) (m : M S A) (Q : result A → S → Prop) : Prop :=
  ∀ s, P s → Q (outcome m s) (after m s).

(** [stable I m]: [m] keeps [I], whether it returns or raises. *)
Definition stable {S A} (I : S → Prop) (m : M S A) : Prop :=
  ∀ s, I s → I (after m s).

(** The files [tools.replace_in_file] has rewritten, in order. *)
Definition edits (l : list event) : list (path * string) :=
  omap (λ e, match e with Replaced f s => Some (f, s) | _ => None end) l.

(** The archives [tools.get] has fetched. *)
Definition downloads (l : list event) : list Version :=
  omap (λ e, match e with Download v => Some v | _ => None end) l.

(** The recipe methods the client has called. *)
Definition methods (l : list event) : list string :=
  omap (λ e, match e with Method n => Some n | _ => None end) l.

(** The renames the recipe has made. *)
Definition renames (l : list event) : list (path * path) :=
  omap (λ e, match e with Renamed a b => Some (a, b) | _ => None end) l.


(** A recipe object with nothing declared yet. *)
Definition undeclared {O X} (self : ConanFile O X) : ConanFile O X :=
  set_requires ∅ (set_build_requires ∅ self).

(** Concrete settings and a machine without network, for examples. *)
Definition linux_gcc : Settings :=
  mkSettings "Linux" "x86_64" "gcc" (mkVersion 11 0 0) "Release"
             (Some "libstdc++11") None.
Definition windows_msvc : Settings :=
  mkSettings "Windows" "x86_64" "Visual Studio" (mkVersion 16 0 0) "Release"
             None None.
Definition macos_clang : Settings :=
  mkSettings "Macos" "x86_64" "apple-clang" (mkVersion 13 0 0) "Release"
             (Some "libc++") None.
Definition offline : Host :=
  mkHost false false ∅ None (λ _, None) (λ _, []) (λ _, ∅) (λ _ _, None).

(** The two deletable options of the codec recipe, and the one of the
    encoding recipe, being absent. *)
Definition gdk_no_fPIC (self : GdkPixbuf.Self) : Prop :=
  GdkPixbuf.fPIC (options self) = None.
Definition gdk_no_jasper (self : GdkPixbuf.Self) : Prop :=
  GdkPixbuf.with_jasper (options self) = None.

Definition iconv_no_fPIC (self : Libiconv.Self) : Prop :=
  Libiconv.fPIC (options self) = None.

(** What the packaging of the encoding library must not leave behind. *)
Definition iconv_stripped (p : path) : Prop :=
  under ["share"] p ∨
  (strictly_under ["lib"] p ∧ fnmatch (basename p) "*.la" = true).

(** Archives, install trees and machines for examples. *)
Definition gdk_archive : tree :=
  {[ ["meson.build"] :=
       "subdir('tests') subdir('thumbnailer') gmodule_dep.get_variable(pkgconfig: 'gmodule_supported')";
     ["build-aux"; "post-install.py"] := "call(close_fds=True)";
     ["COPYING"] := "LGPL" ]}.
Definition gdk_install : tree :=
  {[ ["lib"; "libgdk_pixbuf-2.0.a"] := "archive";
     ["lib"; "pkgconfig"; "gdk-pixbuf-2.0.pc"] := "pc";
     ["lib"; "gdk_pixbuf.pdb"] := "symbols";
     ["share"; "locale"; "de.mo"] := "mo";
     ["bin"; "gdk-pixbuf-pixdata"] := "tool" ]}.
Definition gdk_host : Host :=
  mkHost false false ∅ None (λ _, Some gdk_archive) (λ _, [])
    (λ reqs, kmap (λ n, [n +:+ ".pc"]) reqs)
    (λ i _, if String.eqb (tool i) "meson install"
            then Some gdk_install else Some ∅).

Definition iconv_archive : tree :=
  {[ ["configure"] := "x -install_name \$rpath/ y";
     ["libcharset"; "configure"] := "-install_name \$rpath/";
     ["COPYING.LIB"] := "LGPL" ]}.
Definition iconv_install : tree :=
  {[ ["lib"; "iconv.dll.lib"] := "iconv import library";
     ["lib"; "charset.dll.lib"] := "charset import library";
     ["lib"; "libiconv.la"] := "libtool";
     ["bin"; "iconv.exe"] := "tool";
     ["share"; "man"; "iconv.1"] := "man" ]}.
Definition iconv_host : Host :=
  mkHost true false ∅ None (λ _, Some iconv_archive) (λ _, []) (λ _, ∅)
    (λ i _, if String.eqb (tool i) "make install"
            then Some iconv_install else Some ∅).

(** The encoding recipe, shared, for Visual Studio, as [build] leaves it
    on the example machine. *)
Definition iconv_built : Libiconv.Self :=
  set_attrs
    (Some (Libiconv.mkAutoTools true ["-FS"]
             (Some (Libiconv.mkConfigureCall
                      ["--disable-static"; "--enable-shared"]
                      (Some "x86_64-w64-mingw32") (Some false)))))
    (set_options (Libiconv.mkOptions true None)
       (Libiconv.new (mkVersion 1 16 0) windows_msvc)).

End Logic.

Import Conan Logic.

(** ** The monad *)

Section MonadFacts.
Context {S : Type}.

Lemma outcome_bind {A B} (m : M S A) (k : A → M S B) s :
  outcome (m ≫= k) s =
  match outcome m s with
  | OK a => outcome (k a) (after m s)
  | Raise e => Raise e
  end.
Proof.
  unfold outcome, after, mbind, M_bind; simpl.
  by destruct (runM m s) as [[a|e] s'].
Qed.

Lemma after_bind {A B} (m : M S A) (k : A → M S B) s :
  after (m ≫= k) s =
  match outcome m s with
  | OK a => after (k a) (after m s)
  | Raise e => after m s
  end.
Proof.
  unfold outcome, after, mbind, M_bind; simpl.
  by destruct (runM m s) as [[a|e] s'].
Qed.

Lemma outcome_bind_raise {A B} (m : M S A) (k : A → M S B) s e :
  outcome m s = Raise e → outcome (m ≫= k) s = Raise e.
Proof. intros H. by rewrite outcome_bind, H. Qed.

Lemma after_bind_raise {A B} (m : M S A) (k : A → M S B) s e :
  outcome m s = Raise e → after (m ≫= k) s = after m s.
Proof. intros H. by rewrite after_bind, H. Qed.

Lemma stable_bind {A B} (I : S → Prop) (m : M S A) (k : A → M S B) :
  stable I m → (∀ a, stable I (k a)) → stable I (m ≫= k).
Proof.
  intros Hm Hk s Hs. rewrite after_bind.
  destruct (outcome m s); [apply Hk|]; apply Hm; exact Hs.
Qed.

Lemma stable_ret {A} (I : S → Prop) (a : A) : stable I (mret a).
Proof. by intros s. Qed.

Lemma stable_raise {A} (I : S → Prop) e : stable I (raise (A:=A) e).
Proof. by intros s. Qed.

Lemma stable_this (I : S → Prop) : stable I this.
Proof. by intros s. Qed.

Lemma stable_try {A} (I : S → Prop) (r : result A) : stable I (try r).
Proof. by intros s. Qed.

Lemma stable_modify (I : S → Prop) (f : S → S) :
  (∀ s, I s → I (f s)) → stable I (modify f).
Proof. intros H s. apply H. Qed.

Lemma stable_when (I : S → Prop) (b : bool) (m : M S ()) :
  stable I m → stable I (when b m).
Proof. destruct b; [done|]. intros _. apply stable_ret. Qed.

Lemma stable_for_each {A} (I : S → Prop) (l : list A) (body : A → M S ()) :
  (∀ x, stable I (body x)) → stable I (for_each l body).
Proof.
  intros H. induction l as [|x l IH]; cbn; [apply stable_ret|].
  apply stable_bind; auto.
Qed.

Lemma hoare_bind {A B} (P : S → Prop) (R : A → S → Prop)
    (Q : result B → S → Prop) (m : M S A) (k : A → M S B) :
  hoare P m (λ r s, match r with OK a => R a s | Raise e => Q (Raise e) s end) →
  (∀ a, hoare (R a) (k a) Q) →
  hoare P (m ≫= k) Q.
Proof.
  intros Hm Hk s Hs. specialize (Hm s Hs).
  rewrite outcome_bind, after_bind.
  destruct (outcome m s); [by apply Hk|done].
Qed.

Lemma hoare_weaken {A} (P P' : S → Prop) (Q Q' : result A → S → Prop) (m : M S A) :
  hoare P' m Q' → (∀ s, P s → P' s) → (∀ r s, Q' r s → Q r s) → hoare P m Q.
Proof. intros H HP HQ s Hs. apply HQ, H, HP, Hs. Qed.

Lemma stable_hoare {A} (I : S → Prop) (m : M S A) :
  stable I m → hoare I m (λ _ s, I s).
Proof. intros H s. apply H. Qed.

End MonadFacts.

Create HintDb frame discriminated.
#[global] Hint Resolve stable_ret stable_raise stable_this stable_try
  stable_when stable_for_each : frame.
#[global] Hint Extern 2 (stable _ (_ ≫= _)) => apply stable_bind; [|intros ?] : frame.
#[global] Hint Extern 3 (stable _ (modify _)) => apply stable_modify; intros ? : frame.
#[global] Hint Extern 4 (stable _ (match ?x with _ => _ end)) => destruct x : frame.


Ltac stable_step :=
  lazymatch goal with
  | |- stable _ (_ ≫= _) => apply stable_bind; [|intros ?]
  | |- stable _ (mret _) => apply stable_ret
  | |- stable _ (raise _) => apply stable_raise
  | |- stable _ this => apply stable_this
  | |- stable _ (try _) => apply stable_try
  | |- stable _ (when _ _) => apply stable_when
  | |- stable _ (for_each _ _) => apply stable_for_each; intros ?
  | |- stable _ (modify _) => apply stable_modify; intros ? ?; cbn in *; try done
  | |- stable _ (match ?x with _ => _ end) => destruct x
  | |- stable _ (let _ := _ in _) => cbv zeta
  | |- stable _ ?m => let h := get_head m in unfold h
  end.
Ltac frame := repeat stable_step.

(** Equalities between finite maps that are known in full are decided. *)
Ltac map_compute := refine (bool_decide_unpack _ _); vm_compute; exact I.

(** * Dependency declaration *)

Section Requirements.

Lemma gdk_requirements_returns (self : GdkPixbuf.Self) :
  outcome GdkPixbuf.requirements (undeclared self) = OK ().
Proof.
  destruct self as [v s [sh pic png tiff jpeg jas intro] r b sf bf pf c e out x].
  destruct png, tiff, jpeg, jas as [[]|]; vm_compute; reflexivity.
Qed.

Lemma gdk_requirements_glib (self : GdkPixbuf.Self) :
  requires (after GdkPixbuf.requirements (undeclared self)) !! "glib"
  = Some "2.70.4".
Proof.
  destruct self as [v s [sh pic png tiff jpeg jas intro] r b sf bf pf c e out x].
  destruct png, tiff, jpeg, jas as [[]|]; vm_compute; reflexivity.
Qed.

Lemma gdk_requirements_no_codecs (self : GdkPixbuf.Self) :
  GdkPixbuf.with_libpng (options self) = false →
  GdkPixbuf.with_libtiff (options self) = false →
  GdkPixbuf.with_libjpeg (options self) = GdkPixbuf.libjpeg_False →
  GdkPixbuf.get_safe (GdkPixbuf.with_jasper (options self)) = false →
  requires (after GdkPixbuf.requirements (undeclared self)) = {["glib" := "2.70.4"]}.
Proof.
  destruct self as [v s [sh pic png tiff jpeg jas intro] r b sf bf pf c e out x].
  cbn. intros -> -> -> Hj.
  destruct jas as [[]|]; try discriminate; map_compute.
Qed.

End Requirements.

(** C10: in the codec recipe [glib/2.70.4] is declared for every option
    valuation, and it is the only link-time requirement that is: whatever
    the options are, [requirements] returns and pins [glib] to 2.70.4,
    while any other package is left out when all codec options are off. *)
Theorem glib_required_for_every_option_valuation :
  (∀ self : GdkPixbuf.Self,
     outcome GdkPixbuf.requirements (undeclared self) = OK () ∧
     requires (after GdkPixbuf.requirements (undeclared self)) !! "glib"
     = Some "2.70.4") ∧
  (∀ name : string,
     (∀ self : GdkPixbuf.Self,
        is_Some (requires (after GdkPixbuf.requirements (undeclared self)) !! name))
     ↔ name = "glib").
Proof.
  split.
  - intros self. split; [apply gdk_requirements_returns|apply gdk_requirements_glib].
  - intros name. split.
    + intros H.
      specialize (H (set_options
        (GdkPixbuf.mkOptions false (Some true) false false GdkPixbuf.libjpeg_False
           None false) (GdkPixbuf.new (mkVersion 2 42 6) linux_gcc))).
      rewrite gdk_requirements_no_codecs in H by reflexivity.
      destruct H as [x H]. apply lookup_singleton_Some in H. by destruct H.
    + intros -> self. rewrite gdk_requirements_glib. by eexists.
Qed.

(** The requirement sets the codec recipe declares, as functions of the
    option values. *)
Lemma gdk_requirements_of_options (self1 self2 : GdkPixbuf.Self) :
  options self1 = options self2 →
  requires (after GdkPixbuf.requirements (undeclared self1))
  = requires (after GdkPixbuf.requirements (undeclared self2)).
Proof.
  destruct self1 as [v1 s1 [sh pic png tiff jpeg jas intro] r1 b1 sf1 bf1 pf1 c1 e1 out1 x1].
  destruct self2 as [v2 s2 o2 r2 b2 sf2 bf2 pf2 c2 e2 out2 x2].
  cbn. intros <-.
  destruct png, tiff, jpeg, jas as [[]|]; map_compute.
Qed.

Lemma gdk_build_requirements_of_options (self1 self2 : GdkPixbuf.Self) :
  options self1 = options self2 →
  build_requires (after GdkPixbuf.build_requirements (undeclared self1))
  = build_requires (after GdkPixbuf.build_requirements (undeclared self2)).
Proof.
  destruct self1 as [v1 s1 [sh pic png tiff jpeg jas intro] r1 b1 sf1 bf1 pf1 c1 e1 out1 x1].
  destruct self2 as [v2 s2 o2 r2 b2 sf2 bf2 pf2 c2 e2 out2 x2].
  cbn. intros <-.
  destruct intro; map_compute.
Qed.

Lemma gdk_requirements_twice (self : GdkPixbuf.Self) :
  requires (after GdkPixbuf.requirements
              (after GdkPixbuf.requirements (undeclared self)))
  = requires (after GdkPixbuf.requirements (undeclared self)) ∧
  build_requires (after GdkPixbuf.build_requirements
                    (after GdkPixbuf.build_requirements (undeclared self)))
  = build_requires (after GdkPixbuf.build_requirements (undeclared self)).
Proof.
  destruct self as [v s [sh pic png tiff jpeg jas intro] r b sf bf pf c e out x].
  split.
  - destruct png, tiff, jpeg, jas as [[]|]; map_compute.
  - destruct intro; map_compute.
Qed.

Lemma libiconv_build_requirements_after (h : Host) (self : Libiconv.Self) :
  after (Libiconv.build_requirements h) self
  = if String.eqb (os (Libiconv._settings_build h self)) "Windows"
       && negb (Libiconv.get_env_true h "CONAN_BASH_PATH")
    then set_build_requires
           (build_requires_add "msys2" "cci.latest" (build_requires self)) self
    else self.
Proof.
  unfold Libiconv.build_requirements, after; cbn.
  by destruct (String.eqb _ "Windows" && negb _).
Qed.

(** C2, as stated: two recipe objects with the same option values declare
    the same requirements.  It fails for the build requirements of the
    encoding recipe, which follow the operating system of the build
    machine: with the default options on both sides, [msys2] is required
    on Windows and nothing is on Linux. *)
Lemma build_requirements_differ_for_equal_options :
  let a := Libiconv.new (mkVersion 1 16 0) linux_gcc in
  let b := Libiconv.new (mkVersion 1 16 0) windows_msvc in
  options a = options b ∧
  build_requires (after (Libiconv.build_requirements offline) (undeclared a))
  ≠ build_requires (after (Libiconv.build_requirements offline) (undeclared b)).
Proof.
  split; [reflexivity|].
  intros H. apply (f_equal (λ m : gmap string string, m !! "msys2")) in H.
  vm_compute in H. discriminate.
Qed.

(** C2, amended: in the codec recipe [requirements] and
    [build_requirements] are functions of the option values alone, and
    calling either a second time changes nothing; the encoding recipe
    declares no link-time requirement, and its build requirements are a
    function of the operating system of the build machine and of whether
    [CONAN_BASH_PATH] is set, not of the options. *)
Theorem dependency_declaration_determined :
  (∃ f g : GdkPixbuf.Options → gmap string string,
     ∀ self : GdkPixbuf.Self,
       requires (after GdkPixbuf.requirements (undeclared self))
       = f (options self) ∧
       build_requires (after GdkPixbuf.build_requirements (undeclared self))
       = g (options self) ∧
       requires (after GdkPixbuf.requirements
                   (after GdkPixbuf.requirements (undeclared self)))
       = f (options self) ∧
       build_requires (after GdkPixbuf.build_requirements
                         (after GdkPixbuf.build_requirements (undeclared self)))
       = g (options self)) ∧
  (∃ g : string → bool → gmap string string,
     ∀ (h : Host) (self : Libiconv.Self),
       requires (after Libiconv.requirements (undeclared self)) = ∅ ∧
       build_requires (after (Libiconv.build_requirements h) (undeclared self))
       = g (os (Libiconv._settings_build h self))
           (Libiconv.get_env_true h "CONAN_BASH_PATH") ∧
       build_requires (after (Libiconv.build_requirements h)
                         (after (Libiconv.build_requirements h) (undeclared self)))
       = g (os (Libiconv._settings_build h self))
           (Libiconv.get_env_true h "CONAN_BASH_PATH")).
Proof.
  split.
  - pose (base := GdkPixbuf.new (mkVersion 2 42 6) linux_gcc).
    exists (λ o, requires (after GdkPixbuf.requirements
                             (undeclared (set_options o base)))),
           (λ o, build_requires (after GdkPixbuf.build_requirements
                                   (undeclared (set_options o base)))).
    intros self.
    destruct (gdk_requirements_twice self) as [-> ->].
    split; [by apply gdk_requirements_of_options|].
    split; [by apply gdk_build_requirements_of_options|].
    split; [by apply gdk_requirements_of_options
           |by apply gdk_build_requirements_of_options].
  - exists (λ build_os bash,
              if String.eqb build_os "Windows" && negb bash
              then {["msys2" := "cci.latest"]} else ∅).
    intros h self. split; [reflexivity|].
    rewrite !libiconv_build_requirements_after.
    unfold Libiconv._settings_build, undeclared; cbn.
    destruct (String.eqb _ "Windows" && negb _) eqn:E; cbn; rewrite ?E; cbn;
      split; try reflexivity.
    all: unfold build_requires_add; by rewrite ?insert_insert_eq, ?insert_empty.
Qed.

(** * Environment probing *)

Section Probing.

Lemma gdk_assign_keeps_deleted name value o o' :
  GdkPixbuf.assign_option name value o = OK o' →
  (GdkPixbuf.fPIC o = None → GdkPixbuf.fPIC o' = None) ∧
  (GdkPixbuf.with_jasper o = None → GdkPixbuf.with_jasper o' = None).
Proof.
  unfold GdkPixbuf.assign_option.
  repeat case_match; intros; simplify_eq; cbn; split; congruence.
Qed.

Lemma gdk_user_options_stable requested :
  stable gdk_no_fPIC (GdkPixbuf.user_options requested) ∧
  stable gdk_no_jasper (GdkPixbuf.user_options requested).
Proof.
  unfold GdkPixbuf.user_options.
  split; apply stable_for_each; intros [name value] s Hs;
    unfold after; cbn;
    destruct (GdkPixbuf.assign_option name value (options s)) as [o'|e] eqn:E;
    cbn; try done;
    apply gdk_assign_keeps_deleted in E; unfold gdk_no_fPIC, gdk_no_jasper in *;
    cbn; tauto.
Qed.

Lemma gdk_later_methods_stable (h : Host) (I : GdkPixbuf.Options → Prop) :
  let J := λ self : GdkPixbuf.Self, I (options self) in
  stable J GdkPixbuf.requirements ∧ stable J GdkPixbuf.build_requirements ∧
  stable J (GdkPixbuf.source h) ∧ stable J (GdkPixbuf.prepare_build h) ∧
  stable J (GdkPixbuf.build h) ∧ stable J (GdkPixbuf.package h) ∧
  stable J GdkPixbuf.package_info.
Proof.
  intros J. repeat split; frame.
Qed.

End Probing.

Section ProbingIconv.

Lemma iconv_assign_keeps_deleted name value o o' :
  Libiconv.assign_option name value o = OK o' →
  Libiconv.fPIC o = None → Libiconv.fPIC o' = None.
Proof.
  unfold Libiconv.assign_option.
  repeat case_match; intros; simplify_eq; cbn; congruence.
Qed.

Lemma iconv_user_options_stable requested :
  stable iconv_no_fPIC (Libiconv.user_options requested).
Proof.
  unfold Libiconv.user_options.
  apply stable_for_each; intros [name value] s Hs.
  unfold after; cbn.
  destruct (Libiconv.assign_option name value (options s)) as [o'|e] eqn:E;
    cbn; try done.
  eapply iconv_assign_keeps_deleted in E; eauto.
Qed.

Lemma iconv_later_methods_stable (h : Host) (I : Libiconv.Options → Prop) :
  let J := λ self : Libiconv.Self, I (options self) in
  stable J Libiconv.requirements ∧ stable J (Libiconv.build_requirements h) ∧
  stable J (Libiconv.source h) ∧ stable J (Libiconv.prepare_build h) ∧
  stable J (Libiconv.build h) ∧ stable J (Libiconv.package h) ∧
  stable J Libiconv.package_info.
Proof.
  intros J. repeat split; frame.
Qed.

End ProbingIconv.

Section Pruning.

Lemma gdk_config_options_prunes (self : GdkPixbuf.Self) :
  (os (settings self) = "Windows" → gdk_no_fPIC (after GdkPixbuf.config_options self)) ∧
  (version_ge (version self) (mkVersion 2 42 0) = true →
   gdk_no_jasper (after GdkPixbuf.config_options self)) ∧
  (gdk_no_fPIC self → gdk_no_fPIC (after GdkPixbuf.config_options self)) ∧
  (gdk_no_jasper self → gdk_no_jasper (after GdkPixbuf.config_options self)).
Proof.
  unfold GdkPixbuf.config_options, after, gdk_no_fPIC, gdk_no_jasper; cbn.
  destruct (String.eqb_spec (os (settings self)) "Windows") as [Hw|Hw];
    destruct (version_ge (version self) (mkVersion 2 42 0)); cbn;
    repeat split; intros; congruence.
Qed.

Lemma gdk_config_options_returns (self : GdkPixbuf.Self) :
  outcome GdkPixbuf.config_options self = OK ().
Proof.
  unfold GdkPixbuf.config_options, outcome; cbn.
  by destruct (String.eqb _ "Windows"), (version_ge _ _).
Qed.

Lemma gdk_configure_prunes (self : GdkPixbuf.Self) :
  (GdkPixbuf.shared (options (after GdkPixbuf.configure self)) = true →
   gdk_no_fPIC (after GdkPixbuf.configure self)) ∧
  (gdk_no_fPIC self → gdk_no_fPIC (after GdkPixbuf.configure self)) ∧
  (gdk_no_jasper self → gdk_no_jasper (after GdkPixbuf.configure self)).
Proof.
  unfold GdkPixbuf.configure, after, gdk_no_fPIC, gdk_no_jasper; cbn.
  destruct (GdkPixbuf.shared (options self)) eqn:Hs; cbn;
    destruct (String.eqb (os (settings self)) "Macos"); cbn;
    repeat split; intros; congruence.
Qed.

Lemma gdk_configuration_prunes requested (self : GdkPixbuf.Self) :
  let self' := after (GdkPixbuf.configuration requested) self in
  (os (settings self) = "Windows" → gdk_no_fPIC self') ∧
  (version_ge (version self) (mkVersion 2 42 0) = true → gdk_no_jasper self') ∧
  (outcome (GdkPixbuf.configuration requested) self = OK () →
   GdkPixbuf.shared (options self') = true → gdk_no_fPIC self').
Proof.
  unfold GdkPixbuf.configuration. cbv zeta.
  set (s0 := after (log (Method "config_options")) self).
  assert (Hos : settings s0 = settings self ∧ version s0 = version self) by done.
  destruct Hos as [Hset Hver].
  pose proof (gdk_config_options_prunes s0) as (Hw & Hj & _ & _).
  rewrite Hset in Hw. rewrite Hver in Hj.
  set (s1 := after GdkPixbuf.config_options s0) in *.
  pose proof (gdk_user_options_stable requested) as [Up Uj].
  specialize (Up s1). specialize (Uj s1).
  set (s2 := after (GdkPixbuf.user_options requested) s1) in *.
  set (s3 := after (log (Method "configure")) s2).
  assert (E3 : options s3 = options s2) by done.
  pose proof (gdk_configure_prunes s3) as (Cs & Cp & Cj).
  unfold gdk_no_fPIC, gdk_no_jasper in *. rewrite E3 in Cp, Cj.
  rewrite !outcome_bind, !after_bind.
  change (outcome (log (Method "config_options")) self) with (OK (A:=()) ()).
  change (after (log (Method "config_options")) self) with s0.
  rewrite (gdk_config_options_returns s0).
  fold s1.
  destruct (outcome (GdkPixbuf.user_options requested) s1) as [[]|e] eqn:Eu;
    fold s2.
  - change (outcome (log (Method "configure")) s2) with (OK (A:=()) ()).
    fold s3. repeat split; intros; auto.
  - repeat split; intros; auto. discriminate.
Qed.

End Pruning.

Section PruningRuns.

Lemma gdk_run_keeps_options (h : Host) requested (I : GdkPixbuf.Options → Prop)
    (self : GdkPixbuf.Self) :
  I (options (after (GdkPixbuf.configuration requested) self)) →
  I (options (after (GdkPixbuf.run h requested) self)).
Proof.
  intros H. unfold GdkPixbuf.run. rewrite after_bind.
  destruct (outcome (GdkPixbuf.configuration requested) self); [|done].
  revert H. generalize (after (GdkPixbuf.configuration requested) self).
  change (stable (λ s : GdkPixbuf.Self, I (options s))
            (log (Method "requirements");; GdkPixbuf.requirements;;
             log (Method "build_requirements");; GdkPixbuf.build_requirements;;
             log (Method "source");; GdkPixbuf.source h;;
             GdkPixbuf.prepare_build h;;
             log (Method "build");; GdkPixbuf.build h;;
             log (Method "package");; GdkPixbuf.package h;;
             log (Method "package_info");; GdkPixbuf.package_info)).
  frame.
Qed.

Lemma iconv_config_options_returns (self : Libiconv.Self) :
  outcome Libiconv.config_options self = OK ().
Proof.
  unfold Libiconv.config_options, outcome; cbn.
  by destruct (String.eqb _ "Windows").
Qed.

Lemma iconv_config_options_prunes (self : Libiconv.Self) :
  (os (settings self) = "Windows" →
   iconv_no_fPIC (after Libiconv.config_options self)) ∧
  (iconv_no_fPIC self → iconv_no_fPIC (after Libiconv.config_options self)).
Proof.
  unfold Libiconv.config_options, after, iconv_no_fPIC; cbn.
  destruct (String.eqb_spec (os (settings self)) "Windows") as [Hw|Hw]; cbn;
    repeat split; intros; congruence.
Qed.

Lemma iconv_configure_prunes (self : Libiconv.Self) :
  outcome Libiconv.configure self = OK () ∧
  (Libiconv.shared (options (after Libiconv.configure self)) = true →
   iconv_no_fPIC (after Libiconv.configure self)) ∧
  (iconv_no_fPIC self → iconv_no_fPIC (after Libiconv.configure self)).
Proof.
  unfold Libiconv.configure, after, outcome, iconv_no_fPIC; cbn.
  destruct (Libiconv.shared (options self)) eqn:Hs; cbn;
    repeat split; intros; congruence.
Qed.

Lemma iconv_configuration_prunes requested (self : Libiconv.Self) :
  let self' := after (Libiconv.configuration requested) self in
  (os (settings self) = "Windows" → iconv_no_fPIC self') ∧
  (outcome (Libiconv.configuration requested) self = OK () →
   Libiconv.shared (options self') = true → iconv_no_fPIC self').
Proof.
  unfold Libiconv.configuration. cbv zeta.
  set (s0 := after (log (Method "config_options")) self).
  assert (Hset : settings s0 = settings self) by done.
  pose proof (iconv_config_options_prunes s0) as (Hw & _).
  rewrite Hset in Hw.
  set (s1 := after Libiconv.config_options s0) in *.
  pose proof (iconv_user_options_stable requested s1) as Up.
  set (s2 := after (Libiconv.user_options requested) s1) in *.
  set (s3 := after (log (Method "configure")) s2).
  assert (E3 : options s3 = options s2) by done.
  pose proof (iconv_configure_prunes s3) as (_ & Cs & Cp).
  unfold iconv_no_fPIC in *. rewrite E3 in Cp.
  rewrite !outcome_bind, !after_bind.
  change (outcome (log (Method "config_options")) self) with (OK (A:=()) ()).
  change (after (log (Method "config_options")) self) with s0.
  rewrite (iconv_config_options_returns s0).
  fold s1.
  destruct (outcome (Libiconv.user_options requested) s1) as [[]|e] eqn:Eu;
    fold s2.
  - change (outcome (log (Method "configure")) s2) with (OK (A:=()) ()).
    fold s3. repeat split; intros; auto.
  - repeat split; intros; auto. discriminate.
Qed.

Lemma iconv_run_keeps_options (h : Host) requested (I : Libiconv.Options → Prop)
    (self : Libiconv.Self) :
  I (options (after (Libiconv.configuration requested) self)) →
  I (options (after (Libiconv.run h requested) self)).
Proof.
  intros H. unfold Libiconv.run. rewrite after_bind.
  destruct (outcome (Libiconv.configuration requested) self); [|done].
  revert H. generalize (after (Libiconv.configuration requested) self).
  change (stable (λ s : Libiconv.Self, I (options s))
            (log (Method "requirements");; Libiconv.requirements;;
             log (Method "build_requirements");; Libiconv.build_requirements h;;
             log (Method "source");; Libiconv.source h;;
             Libiconv.prepare_build h;;
             log (Method "build");; Libiconv.build h;;
             log (Method "package");; Libiconv.package h;;
             log (Method "package_info");; Libiconv.package_info)).
  frame.
Qed.

End PruningRuns.

(** C1: after [config_options], the assignment of the requested option
    values and [configure], the options hold nothing that is invalid for
    the target: on Windows [fPIC] is gone, whatever was requested and
    whether or not the configuration went through, and it is still gone
    when the run ends, so no later method sees it; from version 2.42.0 on
    the codec recipe has no [with_jasper]; and a configuration that went
    through with [shared] set has no [fPIC].  Both recipes. *)
Theorem pruned_options_hold_no_invalid_option :
  (∀ (h : Host) requested (self : GdkPixbuf.Self),
     let configured := after (GdkPixbuf.configuration requested) self in
     let final := after (GdkPixbuf.run h requested) self in
     (os (settings self) = "Windows" →
      GdkPixbuf.fPIC (options configured) = None ∧
      GdkPixbuf.fPIC (options final) = None) ∧
     (version_ge (version self) (mkVersion 2 42 0) = true →
      GdkPixbuf.with_jasper (options configured) = None ∧
      GdkPixbuf.with_jasper (options final) = None) ∧
     (outcome (GdkPixbuf.configuration requested) self = OK () →
      GdkPixbuf.shared (options configured) = true →
      GdkPixbuf.fPIC (options configured) = None ∧
      GdkPixbuf.fPIC (options final) = None)) ∧
  (∀ (h : Host) requested (self : Libiconv.Self),
     let configured := after (Libiconv.configuration requested) self in
     let final := after (Libiconv.run h requested) self in
     (os (settings self) = "Windows" →
      Libiconv.fPIC (options configured) = None ∧
      Libiconv.fPIC (options final) = None) ∧
     (outcome (Libiconv.configuration requested) self = OK () →
      Libiconv.shared (options configured) = true →
      Libiconv.fPIC (options configured) = None ∧
      Libiconv.fPIC (options final) = None)).
Proof.
  split.
  - intros h requested self configured final.
    pose proof (gdk_configuration_prunes requested self) as (Hw & Hj & Hs).
    unfold gdk_no_fPIC, gdk_no_jasper in *.
    split; [|split]; intros; split; auto.
    + apply (gdk_run_keeps_options h requested (λ o, GdkPixbuf.fPIC o = None)); auto.
    + apply (gdk_run_keeps_options h requested (λ o, GdkPixbuf.with_jasper o = None)); auto.
    + apply (gdk_run_keeps_options h requested (λ o, GdkPixbuf.fPIC o = None)); auto.
  - intros h requested self configured final.
    pose proof (iconv_configuration_prunes requested self) as (Hw & Hs).
    unfold iconv_no_fPIC in *.
    split; intros; split; auto.
    + apply (iconv_run_keeps_options h requested (λ o, Libiconv.fPIC o = None)); auto.
    + apply (iconv_run_keeps_options h requested (λ o, Libiconv.fPIC o = None)); auto.
Qed.

(** A Windows run of each recipe with [shared] requested. *)
Lemma pruned_options_on_windows :
  (GdkPixbuf.fPIC (options (after (GdkPixbuf.configuration [("shared", "True")])
                              (GdkPixbuf.new (mkVersion 2 42 6) windows_msvc))) = None ∧
   GdkPixbuf.fPIC (options (after (GdkPixbuf.run offline [("shared", "True")])
                              (GdkPixbuf.new (mkVersion 2 42 6) windows_msvc))) = None) ∧
  (Libiconv.fPIC (options (after (Libiconv.configuration [("shared", "True")])
                             (Libiconv.new (mkVersion 1 16 0) windows_msvc))) = None ∧
   Libiconv.fPIC (options (after (Libiconv.run offline [("shared", "True")])
                             (Libiconv.new (mkVersion 1 16 0) windows_msvc))) = None).
Proof.
  destruct pruned_options_hold_no_invalid_option as [G I].
  split.
  - destruct (G offline [("shared", "True")]
                (GdkPixbuf.new (mkVersion 2 42 6) windows_msvc)) as (Hw & _ & _).
    apply Hw. reflexivity.
  - destruct (I offline [("shared", "True")]
                (Libiconv.new (mkVersion 1 16 0) windows_msvc)) as (Hw & _).
    apply Hw. reflexivity.
Defined.

(** * Unsupported targets *)

Section Macos.

Lemma gdk_assign_option_raises name value o e :
  GdkPixbuf.assign_option name value o = Raise e → ∃ msg, e = ConanException msg.
Proof.
  unfold GdkPixbuf.assign_option, GdkPixbuf.option_value_bool,
    GdkPixbuf.option_value_libjpeg, GdkPixbuf.option_not_exist.
  repeat case_match; intros; simplify_eq; eauto.
Qed.

Lemma gdk_user_options_frame requested (s : GdkPixbuf.Self) :
  let s' := after (GdkPixbuf.user_options requested) s in
  output s' = output s ∧ settings s' = settings s ∧ version s' = version s ∧
  source_folder s' = source_folder s ∧ requires s' = requires s ∧
  (outcome (GdkPixbuf.user_options requested) s = OK () ∨
   ∃ msg, outcome (GdkPixbuf.user_options requested) s = Raise (ConanException msg)).
Proof.
  unfold GdkPixbuf.user_options, GdkPixbuf.assign_options.
  generalize (client_order requested). clear requested. intros requested.
  revert s.
  induction requested as [|[name value] l IH]; intros s; cbn [for_each].
  { repeat split; auto. }
  rewrite outcome_bind, after_bind.
  set (body := (self ← this;
                o ← try (GdkPixbuf.assign_option (name, value).1 (name, value).2
                           (options self));
                modify (set_options o)) : M GdkPixbuf.Self ()).
  destruct (GdkPixbuf.assign_option name value (options s)) as [o'|e] eqn:E.
  - assert (Hb : outcome body s = OK () ∧ after body s = set_options o' s).
    { unfold body, outcome, after; cbn. by rewrite E. }
    destruct Hb as [-> ->]. apply (IH (set_options o' s)).
  - assert (Hb : outcome body s = Raise e ∧ after body s = s).
    { unfold body, outcome, after; cbn. by rewrite E. }
    destruct Hb as [-> ->].
    apply gdk_assign_option_raises in E as [msg ->]. repeat split; eauto.
Qed.

Lemma gdk_configure_macos (self : GdkPixbuf.Self) :
  os (settings self) = "Macos" →
  outcome GdkPixbuf.configure self
  = Raise (ConanInvalidConfiguration "This package does not support Macos currently").
Proof.
  intros H. unfold GdkPixbuf.configure, outcome; cbn.
  destruct (GdkPixbuf.shared (options self)); cbn; by rewrite H.
Qed.

Lemma gdk_configure_frame (s : GdkPixbuf.Self) :
  let s' := after GdkPixbuf.configure s in
  output s' = output s ∧ source_folder s' = source_folder s ∧
  requires s' = requires s ∧ version s' = version s.
Proof.
  unfold GdkPixbuf.configure, after; cbn.
  destruct (GdkPixbuf.shared (options s)); cbn;
    by destruct (String.eqb _ "Macos").
Qed.

Lemma gdk_config_options_frame (s : GdkPixbuf.Self) :
  let s' := after GdkPixbuf.config_options s in
  output s' = output s ∧ settings s' = settings s ∧ version s' = version s ∧
  source_folder s' = source_folder s ∧ requires s' = requires s.
Proof.
  unfold GdkPixbuf.config_options, after; cbn.
  by destruct (String.eqb _ "Windows"), (version_ge _ _).
Qed.

Lemma gdk_configuration_unfold requested (self : GdkPixbuf.Self) :
  let s0 := after (log (Method "config_options")) self in
  let s1 := after GdkPixbuf.config_options s0 in
  let s2 := after (GdkPixbuf.user_options requested) s1 in
  let s3 := after (log (Method "configure")) s2 in
  match outcome (GdkPixbuf.user_options requested) s1 with
  | OK _ =>
      outcome (GdkPixbuf.configuration requested) self
      = outcome GdkPixbuf.configure s3 ∧
      after (GdkPixbuf.configuration requested) self = after GdkPixbuf.configure s3
  | Raise e =>
      outcome (GdkPixbuf.configuration requested) self = Raise e ∧
      after (GdkPixbuf.configuration requested) self = s2
  end.
Proof.
  intros s0 s1 s2 s3. unfold GdkPixbuf.configuration.
  rewrite outcome_bind, after_bind.
  change (outcome (log (Method "config_options")) self) with (OK (A:=()) ()).
  cbv iota. fold s0.
  rewrite outcome_bind, after_bind, (gdk_config_options_returns s0). fold s1.
  rewrite outcome_bind, after_bind.
  destruct (outcome (GdkPixbuf.user_options requested) s1) as [[]|e]; fold s2;
    [|done].
  rewrite outcome_bind, after_bind.
  by change (outcome (log (Method "configure")) s2) with (OK (A:=()) ()).
Qed.

(** What the configuration leaves behind: the log shows the two methods
    and nothing else, and an error is either the refusal of a requested
    option value or what [configure] raised. *)
Lemma gdk_configuration_effect requested (self : GdkPixbuf.Self) :
  let m := GdkPixbuf.configuration requested in
  source_folder (after m self) = source_folder self ∧
  requires (after m self) = requires self ∧
  ((output (after m self) = output self ++ [Method "config_options"] ∧
    ∃ msg, outcome m self = Raise (ConanException msg)) ∨
   (output (after m self)
    = output self ++ [Method "config_options"; Method "configure"] ∧
    ∃ s : GdkPixbuf.Self,
      settings s = settings self ∧ version s = version self ∧
      outcome m self = outcome GdkPixbuf.configure s)).
Proof.
  cbv zeta. pose proof (gdk_configuration_unfold requested self) as X.
  cbv zeta in X.
  set (s0 := after (log (Method "config_options")) self) in *.
  pose proof (gdk_config_options_frame s0) as (O1 & S1 & V1 & F1 & R1).
  set (s1 := after GdkPixbuf.config_options s0) in *.
  pose proof (gdk_user_options_frame requested s1) as (O2 & S2 & V2 & F2 & R2 & U).
  set (s2 := after (GdkPixbuf.user_options requested) s1) in *.
  set (s3 := after (log (Method "configure")) s2) in *.
  pose proof (gdk_configure_frame s3) as (O4 & F4 & R4 & V4).
  cbv zeta in *.
  assert (O0 : output s0 = output self ++ [Method "config_options"]) by done.
  assert (O3 : output s3 = output s2 ++ [Method "configure"]) by done.
  assert (E3 : source_folder s3 = source_folder s2 ∧ requires s3 = requires s2
               ∧ settings s3 = settings s2 ∧ version s3 = version s2) by done.
  assert (E0 : source_folder s0 = source_folder self ∧ requires s0 = requires self
               ∧ settings s0 = settings self ∧ version s0 = version self) by done.
  destruct E3 as (F3 & R3 & S3 & V3). destruct E0 as (F0 & R0 & S0 & V0).
  destruct U as [U|[msg U]]; rewrite U in X; destruct X as [Xo Xa]; rewrite Xo, Xa.
  - split; [congruence|]. split; [congruence|].
    right. split.
    + rewrite O4, O3, O2, O1, O0. by rewrite <- app_assoc.
    + exists s3. split; [congruence|]. split; [congruence|done].
  - split; [congruence|]. split; [congruence|].
    left. split; [congruence|eauto].
Qed.

End Macos.

(** C4: in the codec recipe [configure] raises
    [ConanInvalidConfiguration] whenever the target operating system is
    Macos; a run for Macos therefore ends in the configuration, with that
    error (or earlier still, with the refusal of a requested option value),
    and the log shows [config_options] and [configure] and nothing else:
    [source] is not called, nothing is downloaded and the source folder is
    untouched. *)
Theorem macos_rejected_before_source :
  ∀ (h : Host) requested (self : GdkPixbuf.Self),
    os (settings self) = "Macos" →
    let unsupported :=
      ConanInvalidConfiguration "This package does not support Macos currently" in
    let final := after (GdkPixbuf.run h requested) self in
    outcome GdkPixbuf.configure self = Raise unsupported ∧
    outcome (GdkPixbuf.run h []) self = Raise unsupported ∧
    (outcome (GdkPixbuf.run h requested) self = Raise unsupported ∨
     ∃ msg, outcome (GdkPixbuf.run h requested) self = Raise (ConanException msg)) ∧
    (output final = output self ++ [Method "config_options"] ∨
     output final = output self ++ [Method "config_options"; Method "configure"]) ∧
    downloads (output final) = downloads (output self) ∧
    source_folder final = source_folder self.
Proof.
  intros h requested self Hos unsupported final.
  assert (Hrun : ∀ req,
    (outcome (GdkPixbuf.run h req) self = Raise unsupported ∨
     ∃ msg, outcome (GdkPixbuf.run h req) self = Raise (ConanException msg)) ∧
    (output (after (GdkPixbuf.run h req) self)
     = output self ++ [Method "config_options"] ∨
     output (after (GdkPixbuf.run h req) self)
     = output self ++ [Method "config_options"; Method "configure"]) ∧
    source_folder (after (GdkPixbuf.run h req) self) = source_folder self).
  { intros req.
    pose proof (gdk_configuration_effect req self) as (F & _ & C).
    cbv zeta in *. unfold GdkPixbuf.run.
    rewrite outcome_bind, after_bind.
    destruct C as [[O [msg E]]|[O (s & Hs & _ & E)]].
    - rewrite E. eauto 6.
    - rewrite E, (gdk_configure_macos s) by (by rewrite Hs). eauto 6. }
  split; [by apply gdk_configure_macos|].
  split.
  { unfold GdkPixbuf.run. rewrite outcome_bind.
    pose proof (gdk_configuration_unfold [] self) as X. cbv zeta in X.
    change (outcome (GdkPixbuf.user_options []) ?s) with (OK (A:=()) ()) in X.
    destruct X as [-> _]. rewrite gdk_configure_macos; [done|].
    pose proof (gdk_config_options_frame
                  (after (log (Method "config_options")) self)) as (_ & S1 & _).
    pose proof (gdk_user_options_frame []
                  (after GdkPixbuf.config_options
                     (after (log (Method "config_options")) self)))
      as (_ & S2 & _).
    cbv zeta in S1, S2.
    change (os (settings (after (GdkPixbuf.user_options [])
                            (after GdkPixbuf.config_options
                               (after (log (Method "config_options")) self))))
            = "Macos").
    rewrite S2, S1. exact Hos. }
  destruct (Hrun requested) as (E & O & F).
  split; [done|]. split; [done|]. split; [|done].
  fold final in O. destruct O as [-> | ->];
    unfold downloads; rewrite omap_app; cbn; by rewrite app_nil_r.
Qed.

(** A run for Macos with the default options. *)
Lemma macos_run_rejected :
  outcome (GdkPixbuf.run offline [])
          (GdkPixbuf.new (mkVersion 2 42 6) macos_clang)
  = Raise (ConanInvalidConfiguration "This package does not support Macos currently").
Proof.
  apply (macos_rejected_before_source offline []
           (GdkPixbuf.new (mkVersion 2 42 6) macos_clang)).
  reflexivity.
Defined.

(** * Removed options *)

Section Jasper.



End Jasper.



(** * The autotools build *)

(** C8: the first call of [_configure_autotools] records a call of
    [configure] whose arguments are [--disable-static --enable-shared] for
    a shared build and [--enable-static --disable-shared] for a static one,
    and whose host triple, on Visual Studio, msvc or clang for Windows, is
    [i686-w64-mingw32] for x86 and [x86_64-w64-mingw32] for x86_64 (no
    triple is passed with any other compiler); the configure script then
    runs with these arguments, and a later call gives the configured
    object back unchanged. *)
Theorem autotools_configure_arguments :
  ∀ (h : Host) (env : gmap string string) (self : Libiconv.Self),
    let msvc_like := Libiconv._is_msvc self || Libiconv._is_clang_cl self in
    let first := after (Libiconv._configure_autotools h env) (set_attrs None self) in
    (∃ autotools call,
       Libiconv._autotools first = Some autotools ∧
       Libiconv.configured autotools = Some call ∧
       (Libiconv.shared (options self) = true →
        Libiconv.call_args call = ["--disable-static"; "--enable-shared"]) ∧
       (Libiconv.shared (options self) = false →
        Libiconv.call_args call = ["--enable-static"; "--disable-shared"]) ∧
       (msvc_like = true → arch (settings self) = "x86" →
        Libiconv.call_host call = Some "i686-w64-mingw32") ∧
       (msvc_like = true → arch (settings self) = "x86_64" →
        Libiconv.call_host call = Some "x86_64-w64-mingw32") ∧
       (msvc_like = false → Libiconv.call_host call = None) ∧
       Libiconv.call_build call = (if msvc_like then Some false else None) ∧
       output first
       = output self ++
         [Invoked (mkInvocation "configure"
                     (Libiconv.call_args call)
                     (from_option (λ t, {["host" := t]}) ∅ (Libiconv.call_host call))
                     env)] ∧
       outcome (Libiconv._configure_autotools h env) first = OK autotools ∧
       after (Libiconv._configure_autotools h env) first = first).
Proof.
  intros h env self msvc_like first.
  unfold first, Libiconv._configure_autotools, Libiconv._autotools, after, outcome.
  assert (Hm : msvc_like = Libiconv._is_msvc (set_attrs None self)
                           || Libiconv._is_clang_cl (set_attrs None self)) by done.
  cbn. rewrite <- Hm. clear Hm.
  match goal with
  | |- context [execute h ?i ?t] => destruct (execute h i t)
  end; cbn.
  all: eexists _, _; (split; [reflexivity|]); (split; [reflexivity|]); cbn.
  all: split; [by intros ->|]; split; [by intros ->|].
  all: split; [intros Hmsvc Ha; by rewrite Hmsvc, Ha|].
  all: split; [intros Hmsvc Ha; by rewrite Hmsvc, Ha|].
  all: split; [intros Hmsvc; by rewrite Hmsvc|].
  all: split; [by destruct msvc_like|].
  all: done.
Qed.

(** A shared build with Visual Studio for x86_64. *)
Lemma autotools_configure_arguments_msvc :
  ∃ autotools call,
    Libiconv._autotools
      (after (Libiconv._configure_autotools offline ∅)
         (set_attrs None (set_options (Libiconv.mkOptions true None)
                            (Libiconv.new (mkVersion 1 16 0) windows_msvc))))
    = Some autotools ∧
    Libiconv.configured autotools = Some call ∧
    Libiconv.call_args call = ["--disable-static"; "--enable-shared"] ∧
    Libiconv.call_host call = Some "x86_64-w64-mingw32".
Proof.
  destruct (autotools_configure_arguments offline ∅
              (set_options (Libiconv.mkOptions true None)
                 (Libiconv.new (mkVersion 1 16 0) windows_msvc)))
    as (autotools & call & H1 & H2 & Hshared & _ & _ & H64 & _).
  exists autotools, call.
  split; [exact H1|]. split; [exact H2|].
  split; [apply Hshared; reflexivity|apply H64; reflexivity].
Defined.

(** * Folders *)

Section Folders.
Implicit Types (t : tree) (p q d src dst : path).

Lemma rmdir_removes d t t' p :
  rmdir d t = OK t' → under d p → t' !! p = None.
Proof.
  unfold rmdir. destruct (t !! d); [done|]. intros [= <-] Hp.
  apply map_lookup_filter_None. right. intros c _ Hn. by apply Hn.
Qed.

Lemma rmdir_keeps d t t' p :
  rmdir d t = OK t' → ¬ under d p → t' !! p = t !! p.
Proof.
  unfold rmdir. destruct (t !! d); [done|]. intros [= <-] Hp.
  rewrite map_lookup_filter. destruct (t !! p) as [c|]; cbn; [|done].
  by rewrite option_guard_True.
Qed.

Lemma rmdir_subset d t t' p c :
  rmdir d t = OK t' → t' !! p = Some c → t !! p = Some c.
Proof.
  unfold rmdir. destruct (t !! d); [done|]. intros [= <-].
  apply map_lookup_filter_Some_1_1.
Qed.

Lemma rmdir_returns d t :
  t !! d = None → ∃ t', rmdir d t = OK t'.
Proof. unfold rmdir. intros ->. eauto. Qed.

Lemma remove_files_by_mask_removes d pat t p :
  strictly_under d p → fnmatch (basename p) pat = true →
  remove_files_by_mask d pat t !! p = None.
Proof.
  intros Hp Hm. apply map_lookup_filter_None. right. intros c _ Hn.
  by apply Hn.
Qed.

Lemma remove_files_by_mask_keeps d pat t p :
  ¬ (strictly_under d p ∧ fnmatch (basename p) pat = true) →
  remove_files_by_mask d pat t !! p = t !! p.
Proof.
  intros Hp. unfold remove_files_by_mask. rewrite map_lookup_filter.
  destruct (t !! p) as [c|]; cbn; [|done]. by rewrite option_guard_True.
Qed.

Lemma remove_files_by_mask_subset d pat t p c :
  remove_files_by_mask d pat t !! p = Some c → t !! p = Some c.
Proof. apply map_lookup_filter_Some_1_1. Qed.

Lemma isdir_false d t :
  isdir d t = false ↔ ∀ p, strictly_under d p → t !! p = None.
Proof.
  unfold isdir. rewrite bool_decide_eq_false. split.
  - intros H p Hp. destruct (t !! p) as [c|] eqn:E; [|done].
    exfalso. apply H. intros Hemp.
    by apply (map_filter_empty_not_lookup _ _ p c) in Hemp.
  - intros H Hne. apply Hne. apply map_empty. intros p.
    apply map_lookup_filter_None.
    destruct (t !! p) as [c|] eqn:E; [|by left]. right.
    intros c' _ Hp. cbn in Hp. specialize (H p Hp).
    assert (Some c = None) by (rewrite <- E; exact H). done.
Qed.

Lemma path_exists_false d t :
  path_exists d t = false ↔ ∀ p, under d p → t !! p = None.
Proof.
  unfold path_exists. rewrite orb_false_iff, isdir_false, bool_decide_eq_false.
  split.
  - intros [Hd Hs] p Hp. destruct (decide (p = d)) as [->|Hne].
    + by apply eq_None_not_Some.
    + by apply Hs.
  - intros H. split.
    + rewrite (H d); [by intros []|done].
    + intros p [Hp _]. by apply H.
Qed.

(** Renaming a regular file to a free name. *)
Lemma rename_file windows src dst t c :
  t !! src = Some c → path_exists dst t = false →
  rename windows src dst t = OK (<[dst := c]> (delete src t)).
Proof.
  intros Hs Hd. unfold rename, os_rename. by rewrite Hd, Hs.
Qed.

Lemma reroot_self src dst : reroot src dst src = dst.
Proof.
  unfold reroot. rewrite decide_True by done.
  by rewrite drop_all, app_nil_r.
Qed.

(** Whatever is in a folder after a rename was in it before, in the same
    place or below the renamed path. *)
Lemma os_rename_origin windows src dst t t' q c :
  os_rename windows src dst t = OK t' → t' !! q = Some c →
  ∃ p, t !! p = Some c ∧ (q = p ∨ (under src p ∧ q = reroot src dst p)).
Proof.
  unfold os_rename. destruct (t !! src) as [c0|] eqn:Es.
  - case_match; [done|]. intros [= <-] Hq.
    apply lookup_insert_Some in Hq as [[<- <-]|[Hne Hq]].
    + exists src. split; [done|]. right. split; [done|]. by rewrite reroot_self.
    + apply lookup_delete_Some in Hq as [_ Hq]. eauto.
  - repeat case_match; try done. intros [= <-] Hq.
    apply elem_of_list_to_map_2, list_elem_of_fmap in Hq as [[p c'] [Heq Hin]].
    apply elem_of_map_to_list in Hin. cbn in Heq. simplify_eq.
    exists p. split; [done|]. unfold reroot. case_decide; eauto.
Qed.

Lemma rename_origin windows src dst t t' q c :
  rename windows src dst t = OK t' → t' !! q = Some c →
  ∃ p, t !! p = Some c ∧ (q = p ∨ (under src p ∧ q = reroot src dst p)).
Proof.
  unfold rename. case_match; [done|].
  destruct (os_rename windows src dst t) eqn:E; [|done].
  intros [= <-]. by eapply os_rename_origin.
Qed.

End Folders.

(** * Primitive steps *)

Section Steps.
Context {O X : Type}.
Implicit Types (self : ConanFile O X) (f : folder).

Lemma outcome_in_folder f op self :
  outcome (in_folder f op) self
  = match op (get_folder f self) with OK _ => OK () | Raise e => Raise e end.
Proof. unfold in_folder, outcome; cbn. by destruct (op _). Qed.

Lemma after_in_folder f op self :
  after (in_folder f op) self
  = match op (get_folder f self) with OK t => set_folder f t self | Raise _ => self end.
Proof. unfold in_folder, after; cbn. by destruct (op _). Qed.

Lemma outcome_run_tool (h : Host) i self :
  outcome (run_tool h i) self
  = match execute h i (build_folder self) with
    | Some _ => OK ()
    | None => Raise (ToolFailure (tool i))
    end.
Proof. unfold run_tool, outcome; cbn. by destruct (execute _ _ _). Qed.

Lemma after_run_tool (h : Host) i self :
  after (run_tool h i) self
  = let logged := set_output (output self ++ [Invoked i]) self in
    match execute h i (build_folder self) with
    | Some installed =>
        set_package_folder (installed ∪ package_folder self) logged
    | None => logged
    end.
Proof. unfold run_tool, after; cbn. by destruct (execute _ _ _). Qed.

Lemma outcome_tools_replace_in_file f file search repl self :
  outcome (tools_replace_in_file f file search repl) self
  = match replace_in_file file search repl true (get_folder f self) with
    | OK _ => OK ()
    | Raise e => Raise e
    end.
Proof.
  unfold tools_replace_in_file. rewrite outcome_bind, outcome_in_folder.
  by destruct (replace_in_file _ _ _ _ _).
Qed.

Lemma after_tools_replace_in_file f file search repl self :
  after (tools_replace_in_file f file search repl) self
  = match replace_in_file file search repl true (get_folder f self) with
    | OK t => set_output (output self ++ [Replaced file search])
                         (set_folder f t self)
    | Raise _ => self
    end.
Proof.
  unfold tools_replace_in_file.
  rewrite after_bind, outcome_in_folder, after_in_folder.
  destruct (replace_in_file _ _ _ _ _); [|done].
  unfold log, after; cbn. by destruct f.
Qed.

(** A postcondition that only speaks of normal returns holds of [m ≫= k]
    as soon as it holds of what comes last. *)
Lemma returns_bind {S' A B} (m : M S' A) (k : A → M S' B)
    (Q : S' → Prop) (b : B) :
  (∀ a s, outcome (k a) s = OK b → Q (after (k a) s)) →
  ∀ s, outcome (m ≫= k) s = OK b → Q (after (m ≫= k) s).
Proof.
  intros Hk s. rewrite outcome_bind, after_bind.
  destruct (outcome m s); [apply Hk|done].
Qed.

End Steps.

(** * Packaging the codec library *)

Section GdkPackage.

Lemma gdk_package_cleanup (s : GdkPixbuf.Self) (p : path) :
  let cleanup : M GdkPixbuf.Self () :=
    in_folder PackageFolder (rmdir ["lib"; "pkgconfig"]);;
    in_folder PackageFolder (rmdir ["share"]);;
    in_folder PackageFolder (λ t, OK (remove_files_by_mask [] "*.pdb" t)) in
  outcome cleanup s = OK () →
  under ["lib"; "pkgconfig"] p ∨ under ["share"] p ∨
    (p ≠ [] ∧ fnmatch (basename p) "*.pdb" = true) →
  package_folder (after cleanup s) !! p = None.
Proof.
  intros cleanup. unfold cleanup.
  rewrite outcome_bind, after_bind, outcome_in_folder, after_in_folder.
  cbn [get_folder].
  destruct (rmdir ["lib"; "pkgconfig"] (package_folder s)) as [t1|] eqn:E1; [|done].
  rewrite outcome_bind, after_bind, outcome_in_folder, after_in_folder.
  cbn [get_folder set_folder].
  change (package_folder (set_package_folder t1 s)) with t1.
  destruct (rmdir ["share"] t1) as [t2|] eqn:E2; [|done].
  rewrite outcome_in_folder, after_in_folder. cbn [get_folder set_folder].
  change (package_folder (set_package_folder t2 (set_package_folder t1 s))) with t2.
  cbn [package_folder set_package_folder]. intros _ Hp.
  destruct (decide (p ≠ [] ∧ fnmatch (basename p) "*.pdb" = true)) as [[Hne Hm]|Hn].
  { apply remove_files_by_mask_removes; [|done]. split; [apply prefix_nil|done]. }
  rewrite remove_files_by_mask_keeps by (intros [[_ ?] ?]; tauto).
  destruct Hp as [Hp|[Hp|Hp]]; [|by eapply rmdir_removes|tauto].
  destruct (t2 !! p) as [c|] eqn:E; [|done].
  eapply rmdir_subset in E; [|done].
  by rewrite (rmdir_removes _ _ _ p E1 Hp) in E.
Qed.

End GdkPackage.

(** * Running a method step by step *)

Section Primitive.
Context {S : Type}.

Lemma outcome_modify (f : S → S) s : outcome (modify f) s = OK ().
Proof. done. Qed.
Lemma after_modify (f : S → S) s : after (modify f) s = f s.
Proof. done. Qed.
Lemma outcome_this (s : S) : outcome this s = OK s.
Proof. done. Qed.
Lemma after_this (s : S) : after this s = s.
Proof. done. Qed.
Lemma outcome_ret {A} (a : A) (s : S) : outcome (mret a) s = OK a.
Proof. done. Qed.
Lemma after_ret {A} (a : A) (s : S) : after (mret a) s = s.
Proof. done. Qed.
Lemma outcome_try {A} (r : result A) (s : S) : outcome (try r) s = r.
Proof. done. Qed.
Lemma after_try {A} (r : result A) (s : S) : after (try r) s = s.
Proof. done. Qed.
Lemma outcome_raise {A} e (s : S) : outcome (raise (A:=A) e) s = Raise e.
Proof. done. Qed.
Lemma after_raise {A} e (s : S) : after (raise (A:=A) e) s = s.
Proof. done. Qed.
Lemma outcome_when_false (m : M S ()) s : outcome (when false m) s = OK ().
Proof. done. Qed.
Lemma after_when_false (m : M S ()) s : after (when false m) s = s.
Proof. done. Qed.
Lemma outcome_when_true (m : M S ()) s : outcome (when true m) s = outcome m s.
Proof. done. Qed.
Lemma after_when_true (m : M S ()) s : after (when true m) s = after m s.
Proof. done. Qed.

End Primitive.

Lemma outcome_log {O X} (e : event) (self : ConanFile O X) :
  outcome (log e) self = OK ().
Proof. done. Qed.
Lemma after_log {O X} (e : event) (self : ConanFile O X) :
  after (log e) self = set_output (output self ++ [e]) self.
Proof. done. Qed.

Ltac fields :=
  cbn [version settings options requires build_requires source_folder
       build_folder package_folder cpp_info env_info output attrs
       set_settings set_options set_requires set_build_requires
       set_source_folder set_build_folder set_package_folder set_cpp_info
       set_env_info set_output set_attrs get_folder set_folder] in *.

(** The same on [runM] itself, which keeps one copy of the state. *)
Section RunM.
Context {S : Type}.

Lemma runM_bind {A B} (m : M S A) (k : A → M S B) s :
  runM (m ≫= k) s
  = match runM m s with
    | (OK a, s') => runM (k a) s'
    | (Raise e, s') => (Raise e, s')
    end.
Proof. done. Qed.
Lemma runM_modify (f : S → S) s : runM (modify f) s = (OK (), f s).
Proof. done. Qed.
Lemma runM_this (s : S) : runM this s = (OK s, s).
Proof. done. Qed.
Lemma runM_ret {A} (a : A) (s : S) : runM (mret a) s = (OK a, s).
Proof. done. Qed.
Lemma runM_try {A} (r : result A) (s : S) : runM (try r) s = (r, s).
Proof. done. Qed.
Lemma runM_raise {A} e (s : S) : runM (raise (A:=A) e) s = (Raise e, s).
Proof. done. Qed.
Lemma runM_when_true (m : M S ()) s : runM (when true m) s = runM m s.
Proof. done. Qed.
Lemma runM_when_false (m : M S ()) s : runM (when false m) s = (OK (), s).
Proof. done. Qed.
Lemma runM_for_each_nil {A} (body : A → M S ()) s :
  runM (for_each [] body) s = (OK (), s).
Proof. done. Qed.
Lemma runM_for_each_cons {A} (x : A) l (body : A → M S ()) s :
  runM (for_each (x :: l) body) s = runM (body x;; for_each l body) s.
Proof. done. Qed.

End RunM.

Section RunMApi.
Context {O X : Type}.
Implicit Types (self : ConanFile O X).

Lemma runM_log (e : event) self :
  runM (log e) self = (OK (), set_output (output self ++ [e]) self).
Proof. done. Qed.
Lemma runM_in_folder f op self :
  runM (in_folder f op) self
  = match op (get_folder f self) with
    | OK t => (OK (), set_folder f t self)
    | Raise e => (Raise e, self)
    end.
Proof. unfold in_folder; cbn. by destruct (op _). Qed.
Lemma runM_run_tool (h : Host) i self :
  runM (run_tool h i) self
  = let logged := set_output (output self ++ [Invoked i]) self in
    match execute h i (build_folder self) with
    | Some installed =>
        (OK (), set_package_folder (installed ∪ package_folder self) logged)
    | None => (Raise (ToolFailure (tool i)), logged)
    end.
Proof. unfold run_tool; cbn. by destruct (execute _ _ _). Qed.
Lemma runM_tools_replace_in_file f file search repl self :
  runM (tools_replace_in_file f file search repl) self
  = match replace_in_file file search repl true (get_folder f self) with
    | OK t => (OK (), set_output (output self ++ [Replaced file search])
                                 (set_folder f t self))
    | Raise e => (Raise e, self)
    end.
Proof.
  unfold tools_replace_in_file. rewrite runM_bind, runM_in_folder.
  destruct (replace_in_file _ _ _ _ _); [|done]. by destruct f.
Qed.

End RunMApi.

Ltac rrun :=
  repeat first
    [ progress rewrite ?runM_modify, ?runM_this, ?runM_ret, ?runM_try,
        ?runM_raise, ?runM_log, ?runM_when_true, ?runM_when_false,
        ?runM_for_each_nil, ?runM_for_each_cons, ?runM_in_folder,
        ?runM_run_tool, ?runM_tools_replace_in_file
    | progress cbv beta iota zeta
    | rewrite runM_bind ].

Ltac mrun :=
  repeat first
    [ progress rewrite ?outcome_modify, ?after_modify, ?outcome_this,
        ?after_this, ?outcome_ret, ?after_ret, ?outcome_try, ?after_try,
        ?outcome_raise, ?after_raise, ?outcome_log, ?after_log,
        ?outcome_when_false, ?after_when_false, ?outcome_when_true,
        ?after_when_true, ?outcome_in_folder, ?after_in_folder,
        ?outcome_run_tool, ?after_run_tool,
        ?outcome_tools_replace_in_file, ?after_tools_replace_in_file
    | progress cbv beta iota zeta
    | rewrite outcome_bind
    | rewrite after_bind ].

(** X1: when [package] of the codec recipe returns, the package folder
    holds nothing at or below [lib/pkgconfig], nothing at or below
    [share], and no file whose name matches [*.pdb], whatever the build
    system installed and whatever the options are. *)
Theorem gdk_package_strips_metadata :
  ∀ (h : Host) (self : GdkPixbuf.Self) (p : path),
    outcome (GdkPixbuf.package h) self = OK () →
    under ["lib"; "pkgconfig"] p ∨ under ["share"] p ∨
      (p ≠ [] ∧ fnmatch (basename p) "*.pdb" = true) →
    package_folder (after (GdkPixbuf.package h) self) !! p = None.
Proof.
  intros h self p H Hp. revert self H. unfold GdkPixbuf.package.
  do 5 (apply (returns_bind _ _ (λ s, package_folder s !! p = None)); intros ?).
  intros s H. by apply gdk_package_cleanup.
Qed.

(** A codec package built and packaged on the example machine. *)
Lemma gdk_package_strips_metadata_example :
  package_folder
    (after (GdkPixbuf.package gdk_host) (GdkPixbuf.new (mkVersion 2 42 6) linux_gcc))
  !! ["share"; "locale"; "de.mo"] = None.
Proof.
  apply gdk_package_strips_metadata.
  - vm_compute. reflexivity.
  - right. left. by exists ["locale"; "de.mo"].
Defined.

(** * Packaging the encoding library *)

Section IconvPackage.

Lemma rename_keeps_stripped windows a b t t' :
  fnmatch b "*.la" = false →
  rename windows ["lib"; a] ["lib"; b] t = OK t' →
  (∀ p, iconv_stripped p → t !! p = None) →
  ∀ q, iconv_stripped q → t' !! q = None.
Proof.
  intros Hb Hr Ht q Hq.
  destruct (t' !! q) as [c|] eqn:E; [|done]. exfalso.
  destruct (rename_origin _ _ _ _ _ _ _ Hr E) as (p & Hp & [->|[Hu ->]]).
  { by rewrite (Ht _ Hq) in Hp. }
  destruct Hu as [rest ->]. unfold reroot in Hq.
  rewrite decide_True in Hq by (by eexists).
  rewrite drop_app_length' in Hq by done.
  assert (Hbad : iconv_stripped (["lib"; a] ++ rest)); [|by rewrite (Ht _ Hbad) in Hp].
  destruct Hq as [[k Hk]|[Hs Hm]]; [discriminate|].
  right. destruct rest as [|r rest _] using rev_ind.
  { rewrite app_nil_r in Hm. change (basename ["lib"; b]) with b in Hm.
    congruence. }
  split.
  - split; [by exists (a :: rest ++ [r])|]. cbn. discriminate.
  - revert Hm. unfold basename. by rewrite !app_assoc, !last_snoc.
Qed.

Lemma iconv_cleanup_strips t t' :
  rmdir ["share"] (remove_files_by_mask ["lib"] "*.la" t) = OK t' →
  ∀ p, iconv_stripped p → t' !! p = None.
Proof.
  intros Hr p [Hp|[Hs Hm]].
  - by eapply rmdir_removes.
  - destruct (t' !! p) as [c|] eqn:E; [|done].
    eapply rmdir_subset in E; [|done].
    by rewrite remove_files_by_mask_removes in E.
Qed.

End IconvPackage.

Section IconvFinish.

Lemma iconv_package_finish (h : Host) (s : Libiconv.Self) :
  let finish : M Libiconv.Self () :=
    in_folder PackageFolder (λ t, OK (remove_files_by_mask ["lib"] "*.la" t));;
    in_folder PackageFolder (rmdir ["share"]);;
    self ← this;
    when ((Libiconv._is_msvc self || Libiconv._is_clang_cl self)
          && Libiconv.shared (options self))
      (for_each Libiconv.import_libs (λ import_lib,
         in_folder PackageFolder
           (rename (os_info_is_windows h)
              ["lib"; import_lib +:+ ".dll.lib"] ["lib"; import_lib +:+ ".lib"]);;
         log (Renamed ["lib"; import_lib +:+ ".dll.lib"]
                      ["lib"; import_lib +:+ ".lib"]))) in
  outcome finish s = OK () →
  ∀ p, iconv_stripped p → package_folder (after finish s) !! p = None.
Proof.
  intros finish. unfold finish. mrun. fields.
  destruct (rmdir ["share"] (remove_files_by_mask ["lib"] "*.la" (package_folder s)))
    as [t1|] eqn:E1; [|done].
  pose proof (iconv_cleanup_strips _ _ E1) as H1.
  mrun. fields.
  destruct ((Libiconv._is_msvc _ || Libiconv._is_clang_cl _) && _).
  2: { mrun. fields. intros _. exact H1. }
  rewrite outcome_when_true, after_when_true.
  cbn [for_each Libiconv.import_libs]. mrun. fields.
  destruct (rename (os_info_is_windows h) ["lib"; "iconv" +:+ ".dll.lib"]
              ["lib"; "iconv" +:+ ".lib"] t1) as [t2|] eqn:E2; [|done].
  pose proof (λ Hb, rename_keeps_stripped _ _ _ _ _ Hb E2 H1) as H2.
  specialize (H2 eq_refl).
  mrun. fields.
  destruct (rename (os_info_is_windows h) ["lib"; "charset" +:+ ".dll.lib"]
              ["lib"; "charset" +:+ ".lib"] t2) as [t3|] eqn:E3; [|done].
  pose proof (λ Hb, rename_keeps_stripped _ _ _ _ _ Hb E3 H2) as H3.
  specialize (H3 eq_refl).
  mrun. fields. intros _. exact H3.
Qed.

End IconvFinish.

(** X2: when [package] of the encoding recipe returns, the package folder
    holds nothing at or below [share] and no file below [lib] whose name
    matches [*.la]; the renaming of the import libraries that may follow
    the clean-up brings none back. *)
Theorem iconv_package_strips_libtool_files :
  ∀ (h : Host) (self : Libiconv.Self) (p : path),
    outcome (Libiconv.package h) self = OK () →
    under ["share"] p ∨
      (strictly_under ["lib"] p ∧ fnmatch (basename p) "*.la" = true) →
    package_folder (after (Libiconv.package h) self) !! p = None.
Proof.
  intros h self p H Hp. revert self H. unfold Libiconv.package.
  do 2 (apply (returns_bind _ _ (λ s, package_folder s !! p = None)); intros ?).
  cbv zeta.
  do 2 (apply (returns_bind _ _ (λ s, package_folder s !! p = None)); intros ?).
  intros s H. by apply (iconv_package_finish h s H p).
Qed.

(** The encoding package of the example machine, shared, for Visual
    Studio. *)
Lemma iconv_package_strips_libtool_files_example :
  package_folder
    (after (Libiconv.package iconv_host)
       (set_options (Libiconv.mkOptions true None)
          (Libiconv.new (mkVersion 1 16 0) windows_msvc)))
  !! ["lib"; "libiconv.la"] = None.
Proof.
  apply iconv_package_strips_libtool_files.
  - vm_compute. reflexivity.
  - right. split; [|vm_compute; reflexivity].
    split; [by exists ["libiconv.la"]|discriminate].
Defined.

Section IconvImportLibs.

Lemma iconv_configure_autotools_cached (h : Host) env autotools (self : Libiconv.Self) :
  Libiconv._autotools self = Some autotools →
  outcome (Libiconv._configure_autotools h env) self = OK autotools ∧
  after (Libiconv._configure_autotools h env) self = self.
Proof.
  unfold Libiconv._configure_autotools, outcome, after; cbn.
  by intros ->.
Qed.

Lemma iconv_configure_autotools_cached_run (h : Host) env autotools
    (self : Libiconv.Self) :
  Libiconv._autotools self = Some autotools →
  runM (Libiconv._configure_autotools h env) self = (OK autotools, self).
Proof.
  unfold Libiconv._configure_autotools; cbn. by intros ->.
Qed.

Lemma path_exists_subset (d : path) (t t' : tree) :
  (∀ (p : path) c, t' !! p = Some c → t !! p = Some c) →
  path_exists d t = false → path_exists d t' = false.
Proof.
  rewrite !path_exists_false. intros Hsub H p Hp.
  destruct (t' !! p) as [c|] eqn:E; [|done].
  apply Hsub in E. specialize (H p Hp).
  assert (Some c = None) by (rewrite <- E; exact H). done.
Qed.

Lemma iconv_cleanup_returns (t : tree) :
  t !! ["share"] = None →
  ∃ t', rmdir ["share"] (remove_files_by_mask ["lib"] "*.la" t) = OK t' ∧
        (∀ (p : path) c, t' !! p = Some c → t !! p = Some c) ∧
        (∀ p : path, ¬ iconv_stripped p → t' !! p = t !! p).
Proof.
  intros Hs.
  destruct (rmdir_returns ["share"] (remove_files_by_mask ["lib"] "*.la" t))
    as [t' E].
  { rewrite remove_files_by_mask_keeps; [done|].
    intros [[[k Hk] _] _]. discriminate. }
  exists t'. split; [done|]. split.
  - intros p c H. eapply remove_files_by_mask_subset, rmdir_subset; eauto.
  - intros p Hp. rewrite (rmdir_keeps _ _ _ p E).
    + apply remove_files_by_mask_keeps. intros ?. apply Hp. by right.
    + intros ?. apply Hp. by left.
Qed.

End IconvImportLibs.

(** X3: in the encoding recipe, for a shared build with Visual Studio,
    msvc or clang on Windows, once [build] has configured the autotools
    and the install step has left [lib/iconv.dll.lib] and
    [lib/charset.dll.lib] (and neither [lib/iconv.lib] nor
    [lib/charset.lib]), [package] returns and the two import libraries are
    found, with their contents, under [lib/iconv.lib] and
    [lib/charset.lib] and no longer under their old names. *)
Theorem iconv_import_libraries_renamed :
  ∀ (h : Host) (self : Libiconv.Self) autotools (inst : tree) (a b : string),
    Libiconv._autotools self = Some autotools →
    execute h (mkInvocation "make install" [] ∅ (Libiconv._build_context h self))
            (build_folder self) = Some inst →
    let installed :=
      inst ∪ copy "COPYING.LIB" ["licenses"] [Libiconv._source_subfolder]
                  (build_folder self) (package_folder self) in
    installed !! ["share"] = None →
    installed !! ["lib"; "iconv.dll.lib"] = Some a →
    installed !! ["lib"; "charset.dll.lib"] = Some b →
    path_exists ["lib"; "iconv.lib"] installed = false →
    path_exists ["lib"; "charset.lib"] installed = false →
    (Libiconv._is_msvc self || Libiconv._is_clang_cl self)
      && Libiconv.shared (options self) = true →
    let packaged := after (Libiconv.package h) self in
    outcome (Libiconv.package h) self = OK () ∧
    package_folder packaged !! ["lib"; "iconv.lib"] = Some a ∧
    package_folder packaged !! ["lib"; "charset.lib"] = Some b ∧
    package_folder packaged !! ["lib"; "iconv.dll.lib"] = None ∧
    package_folder packaged !! ["lib"; "charset.dll.lib"] = None ∧
    renames (output packaged)
    = renames (output self) ++
      [(["lib"; "iconv.dll.lib"], ["lib"; "iconv.lib"]);
       (["lib"; "charset.dll.lib"], ["lib"; "charset.lib"])].
Proof.
  intros h self autotools inst a b Hat Hex installed Hshare Ha Hb Hna Hnb Hc packaged.
  destruct (iconv_cleanup_returns installed Hshare) as (t1 & E1 & Hsub & Hkeep).
  assert (Ha1 : t1 !! ["lib"; "iconv.dll.lib"] = Some a).
  { rewrite Hkeep; [done|]. intros [[k Hk]|[_ Hm]]; [discriminate|].
    vm_compute in Hm. discriminate. }
  assert (Hb1 : t1 !! ["lib"; "charset.dll.lib"] = Some b).
  { rewrite Hkeep; [done|]. intros [[k Hk]|[_ Hm]]; [discriminate|].
    vm_compute in Hm. discriminate. }
  pose proof (path_exists_subset _ _ _ Hsub Hna) as Hna1.
  pose proof (path_exists_subset _ _ _ Hsub Hnb) as Hnb1.
  pose proof (rename_file (os_info_is_windows h) _ _ _ _ Ha1 Hna1) as R1.
  match type of R1 with
  | _ = OK ?x => set (t2 := x) in R1; assert (Et2 : t2 = x) by reflexivity;
                 clearbody t2
  end.
  assert (Hb2 : t2 !! ["lib"; "charset.dll.lib"] = Some b).
  { rewrite Et2. rewrite lookup_insert_ne, lookup_delete_ne by discriminate. done. }
  assert (Hnb2 : path_exists ["lib"; "charset.lib"] t2 = false).
  { apply path_exists_false. intros p Hp.
    rewrite path_exists_false in Hnb1. rewrite Et2.
    rewrite lookup_insert_ne.
    - apply lookup_delete_None. right. by apply Hnb1.
    - intros <-. destruct Hp as [k Hk]. discriminate. }
  pose proof (rename_file (os_info_is_windows h) _ _ _ _ Hb2 Hnb2) as R2.
  match type of R2 with
  | _ = OK ?x => set (t3 := x) in R2; assert (Et3 : t3 = x) by reflexivity;
                 clearbody t3
  end.
  assert (Hrun : ∃ s', runM (Libiconv.package h) self = (OK (), s') ∧
                 package_folder s' = t3 ∧
                 output s'
                 = output self ++
                   [Invoked (mkInvocation "make install" [] ∅
                               (Libiconv._build_context h self));
                    Renamed ["lib"; "iconv.dll.lib"] ["lib"; "iconv.lib"];
                    Renamed ["lib"; "charset.dll.lib"] ["lib"; "charset.lib"]]).
  { eexists. split.
    - unfold Libiconv.package. rrun. fields.
      rewrite (iconv_configure_autotools_cached_run h _ autotools) by exact Hat.
      rrun. fields.
      change (Libiconv._build_context h (set_package_folder ?x self))
        with (Libiconv._build_context h self).
      rewrite Hex. rrun. fields. fold installed. rewrite E1. rrun. fields.
      change (Libiconv._is_msvc (set_package_folder ?x ?y))
        with (Libiconv._is_msvc self).
      change (Libiconv._is_clang_cl (set_package_folder ?x ?y))
        with (Libiconv._is_clang_cl self).
      rewrite Hc. unfold Libiconv.import_libs. rrun. fields.
      change ("iconv" +:+ ".dll.lib") with "iconv.dll.lib".
      change ("iconv" +:+ ".lib") with "iconv.lib".
      rewrite R1. rrun. fields.
      change ("charset" +:+ ".dll.lib") with "charset.dll.lib".
      change ("charset" +:+ ".lib") with "charset.lib".
      rewrite R2. rrun. fields. reflexivity.
    - fields. split; [done|]. by rewrite <- !app_assoc. }
  destruct Hrun as (s' & Hr & Hpf' & Hout').
  assert (Ho : outcome (Libiconv.package h) self = OK ()).
  { unfold outcome. by rewrite Hr. }
  assert (Hs' : packaged = s').
  { unfold packaged, after. by rewrite Hr. }
  assert (Hpf : package_folder packaged = t3) by (by rewrite Hs').
  assert (Hout : output packaged
                 = output self ++
                   [Invoked (mkInvocation "make install" [] ∅
                               (Libiconv._build_context h self));
                    Renamed ["lib"; "iconv.dll.lib"] ["lib"; "iconv.lib"];
                    Renamed ["lib"; "charset.dll.lib"] ["lib"; "charset.lib"]])
    by (by rewrite Hs').
  clear Hr Hs' Hpf' Hout'.
  split; [done|]. rewrite Hpf, Hout, Et3, Et2.
  split.
  { rewrite lookup_insert_ne, lookup_delete_ne by discriminate.
    by rewrite lookup_insert_eq. }
  split; [by rewrite lookup_insert_eq|].
  split.
  { rewrite lookup_insert_ne, lookup_delete_ne, lookup_insert_ne by discriminate.
    by rewrite lookup_delete_eq. }
  split.
  { rewrite lookup_insert_ne by discriminate. by rewrite lookup_delete_eq. }
  unfold renames. rewrite omap_app. cbn. done.
Qed.

(** The import libraries of the example package. *)
Lemma iconv_import_libraries_renamed_example :
  outcome (Libiconv.package iconv_host) iconv_built = OK () ∧
  package_folder (after (Libiconv.package iconv_host) iconv_built)
    !! ["lib"; "iconv.lib"] = Some "iconv import library".
Proof.
  destruct (iconv_import_libraries_renamed iconv_host iconv_built
              (Libiconv.mkAutoTools true ["-FS"]
                 (Some (Libiconv.mkConfigureCall
                          ["--disable-static"; "--enable-shared"]
                          (Some "x86_64-w64-mingw32") (Some false))))
              iconv_install "iconv import library" "charset import library")
    as (H1 & H2 & _); try (vm_compute; reflexivity).
  split; [exact H1|exact H2].
Defined.

(** * What the codec recipe requires *)

(** X4: the link-time requirements of the codec recipe follow the options
    one by one: [libpng] exactly when [with_libpng] is set, [libtiff]
    exactly when [with_libtiff] is, [libjpeg] or [libjpeg-turbo] as
    [with_libjpeg] says and never both, and [jasper] exactly when the
    option [with_jasper] exists and is set; each in its pinned version. *)
Theorem gdk_requirements_follow_options :
  ∀ self : GdkPixbuf.Self,
    let o := options self in
    let declared := requires (after GdkPixbuf.requirements (undeclared self)) in
    declared !! "libpng"
      = (if GdkPixbuf.with_libpng o then Some "1.6.37" else None) ∧
    declared !! "libtiff"
      = (if GdkPixbuf.with_libtiff o then Some "4.3.0" else None) ∧
    declared !! "libjpeg"
      = (match GdkPixbuf.with_libjpeg o with
         | GdkPixbuf.libjpeg => Some "9d" | _ => None end) ∧
    declared !! "libjpeg-turbo"
      = (match GdkPixbuf.with_libjpeg o with
         | GdkPixbuf.libjpeg_turbo => Some "2.1.2" | _ => None end) ∧
    declared !! "jasper"
      = (match GdkPixbuf.with_jasper o with
         | Some true => Some "2.0.33" | _ => None end) ∧
    ¬ (is_Some (declared !! "libjpeg") ∧ is_Some (declared !! "libjpeg-turbo")).
Proof.
  intros self.
  destruct self as [v s [sh pic png tiff jpeg jas intro] r b sf bf pf c e out x].
  destruct png, tiff, jpeg, jas as [[]|]; vm_compute;
    repeat split; try reflexivity; intros [[? H1] [? H2]]; discriminate.
Qed.

(** X5: the build-time requirements of the codec recipe are [meson] and
    [pkgconf], always, and [gobject-introspection] exactly when
    [with_introspection] is set; nothing else is asked for. *)
Theorem gdk_build_requirements_follow_options :
  ∀ self : GdkPixbuf.Self,
    outcome GdkPixbuf.build_requirements (undeclared self) = OK () ∧
    build_requires (after GdkPixbuf.build_requirements (undeclared self))
    = if GdkPixbuf.with_introspection (options self)
      then {["meson" := "0.61.2"; "pkgconf" := "1.7.4";
             "gobject-introspection" := "1.70.0"]}
      else {["meson" := "0.61.2"; "pkgconf" := "1.7.4"]}.
Proof.
  intros self.
  destruct self as [v s [sh pic png tiff jpeg jas intro] r b sf bf pf c e out x].
  destruct intro; (split; [vm_compute; reflexivity | map_compute]).
Qed.

(** * What meson is told *)

Lemma version_lt_ge a b : version_lt a b = negb (version_ge a b).
Proof. unfold version_lt, version_ge. by destruct (version_compare a b). Qed.

(** X6: whatever the version and the options, the definitions
    [_configure_meson] hands to meson set [introspection] to [enabled] or
    [disabled] as [with_introspection] says (the [false] written first for
    versions from 2.42.0 on never reaches meson); [gir] and [x11] are
    passed, as [false], exactly for versions before 2.42.0; [jasper] is
    passed exactly when the option [with_jasper] exists; documentation,
    manual pages and installed tests are always off, and the one argument
    is [--wrap-mode=nofallback]. *)
Theorem meson_definitions :
  ∀ (h : Host) (env : gmap string string) (self : GdkPixbuf.Self),
    let o := options self in
    let defs := GdkPixbuf.meson_defs (version self) o in
    output (after (GdkPixbuf._configure_meson h env) self)
    = output self ++
      [Invoked (mkInvocation "meson configure" ["--wrap-mode=nofallback"] defs env)] ∧
    defs !! "introspection"
      = Some (if GdkPixbuf.with_introspection o then "enabled" else "disabled") ∧
    defs !! "gir"
      = (if version_ge (version self) (mkVersion 2 42 0) then None else Some "false") ∧
    defs !! "x11"
      = (if version_ge (version self) (mkVersion 2 42 0) then None else Some "false") ∧
    defs !! "jasper" = GdkPixbuf.true_false <$> GdkPixbuf.with_jasper o ∧
    defs !! "png" = Some (GdkPixbuf.true_false (GdkPixbuf.with_libpng o)) ∧
    defs !! "tiff" = Some (GdkPixbuf.true_false (GdkPixbuf.with_libtiff o)) ∧
    defs !! "jpeg"
      = Some (GdkPixbuf.true_false (GdkPixbuf.libjpeg_true (GdkPixbuf.with_libjpeg o))) ∧
    defs !! "docs" = Some "false" ∧ defs !! "man" = Some "false" ∧
    defs !! "installed_tests" = Some "false" ∧
    defs !! "builtin_loaders" = Some "all" ∧
    defs !! "gio_sniffing" = Some "false".
Proof.
  intros h env self o defs. split.
  { unfold GdkPixbuf._configure_meson. mrun. fields.
    by destruct (execute h _ _). }
  unfold defs, GdkPixbuf.meson_defs. rewrite version_lt_ge.
  destruct (version_ge (version self) (mkVersion 2 42 0));
    destruct (GdkPixbuf.with_jasper o) as [j|]; cbn [negb];
    repeat split; by simplify_map_eq.
Qed.

(** * Settings *)

(** X7: [configure] of either recipe removes the C++ sub-settings
    [compiler.libcxx] and [compiler.cppstd] and leaves the operating
    system, the architecture, the compiler with its version and the build
    type as they were; in the codec recipe this holds also when
    [configure] ends with the Macos error, which is raised only after the
    sub-settings are gone. *)
Theorem configure_strips_cxx_settings :
  (∀ self : GdkPixbuf.Self,
     let s := settings self in
     let s' := settings (after GdkPixbuf.configure self) in
     libcxx s' = None ∧ cppstd s' = None ∧
     os s' = os s ∧ arch s' = arch s ∧ compiler s' = compiler s ∧
     compiler_version s' = compiler_version s ∧ build_type s' = build_type s) ∧
  (∀ self : Libiconv.Self,
     let s := settings self in
     let s' := settings (after Libiconv.configure self) in
     outcome Libiconv.configure self = OK () ∧
     libcxx s' = None ∧ cppstd s' = None ∧
     os s' = os s ∧ arch s' = arch s ∧ compiler s' = compiler s ∧
     compiler_version s' = compiler_version s ∧ build_type s' = build_type s).
Proof.
  split; intros self.
  - unfold GdkPixbuf.configure, after; cbn.
    destruct (GdkPixbuf.shared (options self)); cbn;
      by destruct (String.eqb _ "Macos").
  - unfold Libiconv.configure, after, outcome; cbn.
    by destruct (Libiconv.shared (options self)).
Qed.

(** * The build machine of the encoding recipe *)

(** X8: the encoding recipe asks for [msys2/cci.latest] as a build
    requirement exactly when the build machine runs Windows and
    [CONAN_BASH_PATH] is unset or empty; the operating system is the one
    of the build profile when there is one, and the one of the target
    settings otherwise. *)
Theorem iconv_msys2_required_iff :
  ∀ (h : Host) (self : Libiconv.Self),
    let build_os := match settings_build h with
                    | Some s => os s
                    | None => os (settings self)
                    end in
    let declared :=
      build_requires (after (Libiconv.build_requirements h) (undeclared self)) in
    outcome (Libiconv.build_requirements h) (undeclared self) = OK () ∧
    (declared !! "msys2" = Some "cci.latest" ↔
     build_os = "Windows" ∧
     (environ h !! "CONAN_BASH_PATH" = None ∨
      environ h !! "CONAN_BASH_PATH" = Some "")) ∧
    (declared = ∅ ∨ declared = {["msys2" := "cci.latest"]}).
Proof.
  intros h self build_os declared.
  unfold declared. rewrite libiconv_build_requirements_after.
  unfold Libiconv.build_requirements, Libiconv._settings_build,
    Libiconv.get_env_true, outcome, undeclared. cbn.
  assert (Hos : os (default (settings self) (settings_build h)) = build_os).
  { unfold build_os. by destruct (settings_build h). }
  rewrite Hos.
  destruct (String.eqb_spec build_os "Windows") as [Hw|Hw];
    destruct (environ h !! "CONAN_BASH_PATH") as [v|] eqn:Ev; cbn;
    try destruct (String.eqb_spec v "") as [->|Hv]; cbn.
  all: split; [done|]; split; [|auto].
  all: try (split; [intros ?; discriminate|intros [? [?|?]]; congruence]).
  all: split; [intros _; auto|intros _].
  all: unfold build_requires_add; by rewrite lookup_insert_eq.
Qed.
